(** * Hotel finder agent: tools and agent loop of [ai_agents_course.py]

    A shallow embedding of the four tools ([get_iata_of_city],
    [get_best_offer], [get_price_in_wanted_currency], [about_you]) and of the
    reasoning/acting graph ([calling_model], [calling_tools],
    [continue_or_end], [workflow], [predict]).

    The external collaborators (the Amadeus client, the exchange-rate
    endpoint, the chat model, Python's [float]) are variables of the
    section: each call takes the state of the outside world and returns
    either a value or a raised exception together with the next world. Every
    call is also written to a log, so that statements about how often and in
    which order the collaborators are called can be made. *)

From Stdlib Require Import ZArith Ascii String List Bool Lia.
From Stdlib Require Import Floats.SpecFloat.
From stdpp Require Import base option list gmap strings.

Local Open Scope Z_scope.
Local Open Scope string_scope.
Local Open Scope list_scope.

(** ** Python values *)

Module Py.

(** Python floats are IEEE 754 binary64 numbers. *)
Definition prec : Z := 53.
Definition emax : Z := 1024.

Abbreviation float := spec_float.

(** [a < b] and [a <= b] on floats: false as soon as one side is nan. *)
Definition lt (a b : float) : bool := SFltb a b.
Definition le (a b : float) : bool := SFleb a b.
Definition is_nan (a : float) : bool :=
  match a with S754_nan => true | _ => false end.

(** The binary64 number nearest to an integer [n]: exact below 2^53, an
    infinity beyond the largest finite number. *)
Definition float_of_int (n : Z) : float := binary_normalize prec emax n 0 false.

(** The values a decoded JSON leaf can hold. *)
Inductive value : Type :=
  | VNone
  | VStr (s : string)
  | VInt (n : Z)
  | VFloat (f : float).

(** What a call leaves behind: a value, or an exception on its way up. *)
Inductive outcome (A : Type) : Type :=
  | Returned (a : A)
  | Raised.
Arguments Returned {A} a.
Arguments Raised {A}.

(** [float(n)] for an integer [n]: the nearest binary64 number, and an
    [OverflowError] when the integer is too large for one. *)
Definition py_float_of_int (n : Z) : outcome float :=
  match float_of_int n with
  | S754_infinity _ => Raised
  | f => Returned f
  end.

(** [range(start, stop, step)] for a positive step. *)
Fixpoint range_from (n : nat) (start stop step : nat) : list nat :=
  match n with
  | O => []
  | S n' =>
      if (start <? stop)%nat
      then start :: range_from n' (start + step) stop step
      else []
  end.
Definition range (start stop step : nat) : list nat :=
  range_from stop start stop step.

(** [xs[i : j]] for [0 <= i <= j]. *)
Definition slice {A : Type} (xs : list A) (i j : nat) : list A :=
  take (j - i) (drop i xs).

End Py.

Import Py.

(** ** Data model *)

(** A record of the location provider, as [get_iata_of_city] reads it:
    [i.get('name')], [i.get('iataCode')] (absent for a city without a code),
    and the two nested objects [i.get('address')] and [i.get('geoCode')].
    Both objects are present, as the provider gives its records; on a
    record without one the code raises inside its [try] and answers with
    the error object. *)
Record city_record : Type := {
  city_name : value;
  city_iataCode : option string;
  city_address : gmap string value;
  city_geoCode : gmap string value
}.

(** An entry of the hotel listing: [hotel.get('hotelId')]. *)
Record hotel : Type := { hotelId : option string }.

(** An offer: [offer['price']['total']], [offer['price']['currency']],
    [offer['room']['description']['text']]. *)
Record offer : Type := {
  price_total : string;
  price_currency : string;
  room_description_text : string
}.

(** An element of [req.data]: [hotelOffer['hotel']['name']] and
    [hotelOffer['offers']]. *)
Record hotel_offer : Type := {
  hotel_name : string;
  offers : list offer
}.

(** The dictionary [get_best_offer] builds on a strict improvement. *)
Record best_offer : Type := {
  hotelName : string;
  offerTotalAccommodationAmount : string;
  offerCurrency : string;
  offerRoomDescription : string;
  people : Z;
  checkInDate : string;
  checkOutDate : string
}.

(** The decoded body of the exchange-rate reply: a falsy value ([None], an
    empty object, ...) or a non-empty object, with or without the key
    ['conversion_rates']. *)
Inductive rates_data : Type :=
  | DataFalsy
  | DataObject (conversion_rates : option (gmap string value)).

(** What a tool hands back. [PriceDict f] is [{'price': str(f)}]. *)
Inductive tool_response : Type :=
  | IataDict (d : gmap (option string) (gmap string value))
  | OfferDict (o : best_offer)
  | PyNone
  | PriceDict (price : float)
  | ServicesInfo (agent_services_info : string)
  | ErrorDict (error : string).

(** The argument schemas [ToolFields0], [ToolFields1], [ToolFields2], and
    the empty schema of [about_you]. *)
Inductive tool_args : Type :=
  | ToolFields0 (city country : string)
  | ToolFields1 (iataCityCode : string) (people : Z)
                (checkInDate checkOutDate : string)
  | ToolFields2 (wantedCurrency currentCurrency : string) (price : float)
  | NoFields.

(** An entry of [AIMessage.tool_calls]. *)
Record tool_call : Type := {
  tc_name : string;
  tc_args : tool_args;
  tc_id : string
}.

Inductive message : Type :=
  | SystemMessage (content : string)
  | HumanMessage (content : string)
  | AIMessage (content : string) (tool_calls : list tool_call)
  | ToolMessage (content : tool_response) (name : string)
                (tool_call_id : string).

(** The content of a message, as [predict] reads it. *)
Inductive content : Type :=
  | Text (s : string)
  | ToolOutput (r : tool_response).

Definition message_content (m : message) : content :=
  match m with
  | SystemMessage c | HumanMessage c | AIMessage c _ => Text c
  | ToolMessage r _ _ => ToolOutput r
  end.

(** [AgentState]: [messages] is extended by [add_messages];
    [number_of_steps] is declared and never written. *)
Record AgentState : Type := {
  messages : list message;
  number_of_steps : option Z
}.

(** How a query of the offer provider came back. *)
Inductive status : Type := Faulted | NoResult | GotResult.

(** The log of calls to the collaborators. *)
Inductive event : Type :=
  | CitiesGet (keyword : string)
  | HotelsByCity (cityCode : string)
  | OffersSearch (hotelIds : list (option string)) (adults : Z)
                 (checkInDate checkOutDate : string) (st : status)
  | RatesGet (currentCurrency : string)
  | ModelInvoke (history : list message)
  | ToolInvoke (call : tool_call).

#[global] Instance status_eq_dec : EqDecision status.
Proof. solve_decision. Defined.

(** What a computation runs on: the state of everything outside the
    program, and the log of the calls made to it. *)
Record machine (World : Type) : Type := {
  world : World;
  log : list event
}.
Arguments world {World} _.
Arguments log {World} _.
Arguments Build_machine {World} _ _.

(** The entries of the chat history, and the instruction [predict] puts
    in front of them. *)
Inductive role : Type := user | assistant.

Definition system_prompt : string :=
  "You are a friendly Hotel Finder Agent. Use the language provided by the user, use most of the available tools at once if needed to complete the user request and do not complain regarding incompatibilities with the provided tools. The tools parameters if they are strings must be given in english. Answer in a smart way providing all the hotel offer info if it is available.".

Definition chat_message (entry : role * string) : message :=
  match fst entry with
  | user => HumanMessage (snd entry)
  | assistant => AIMessage (snd entry) []
  end.

(** ** Scripted collaborators

    The collaborators of the closed runs at the end of the file: the
    outside world is a counter of the calls made so far, and each
    collaborator is a script. *)

Module Script.

Definition digit_of (a : Ascii.ascii) : option Z :=
  let n := Z.of_nat (Ascii.nat_of_ascii a) in
  if ((48 <=? n)%Z && (n <=? 57)%Z)%bool then Some (n - 48) else None.

(** Reads a run of digits: the number so far, the digits read, the rest. *)
Fixpoint read_digits (s : string) (acc : Z) (count : nat)
    : Z * nat * string :=
  match s with
  | String a s' =>
      match digit_of a with
      | Some d => read_digits s' (10 * acc + d) (S count)
      | None => (acc, count, s)
      end
  | EmptyString => (acc, count, s)
  end.

(** The binary64 number nearest to [n / d] (ties to even), for [0 <= n]
    and [0 < d]. *)
Definition round_ratio (neg : bool) (n d : Z) : float :=
  match n with
  | Z0 => S754_zero neg
  | _ =>
      let '(q, e, l) := SFdiv_core_binary prec emax n 0 d 0 in
      binary_round_aux prec emax neg q e l
  end.

(** A script for [py_float], not the whole of [float]: the plain decimal
    literals [-ddd] and [-ddd.ddd] are converted as [float] converts them;
    every other string is refused. The runs below give it such literals
    and ["n/a"] only. *)
Definition float_of_decimal (s : string) : option float :=
  let '(neg, s) :=
    match s with
    | String "-"%char s' => (true, s')
    | _ => (false, s)
    end in
  let '(n, k, rest) := read_digits s 0 0 in
  match k, rest with
  | O, _ => None
  | _, EmptyString => Some (round_ratio neg n 1)
  | _, String "."%char frac =>
      let '(n', k', rest') := read_digits frac n 0 in
      match rest' with
      | EmptyString => Some (round_ratio neg n' (10 ^ Z.of_nat k'))
      | _ => None
      end
  | _, _ => None
  end.

Definition W : Type := nat.

Definition start : machine W := {| world := 0%nat; log := [] |}.

(** *** Location provider *)

Definition athens_gr : city_record :=
  {| city_name := VStr "Athens";
     city_iataCode := Some "ATH";
     city_address := {[ "countryCode" := VStr "GR" ]};
     city_geoCode := {[ "latitude" := VInt 38; "longitude" := VInt 24 ]} |}.

Definition athens_us : city_record :=
  {| city_name := VStr "Athens";
     city_iataCode := Some "AHN";
     city_address := {[ "countryCode" := VStr "US" ]};
     city_geoCode := {[ "latitude" := VInt 34; "longitude" := VInt (-83) ]} |}.

Definition cities_two (_ : string) (w : W)
    : outcome (list city_record) * W :=
  (Returned [athens_gr; athens_us], S w).

Definition cities_none (_ : string) (w : W)
    : outcome (list city_record) * W :=
  (Returned [], S w).

Definition cities_down (_ : string) (w : W)
    : outcome (list city_record) * W :=
  (Raised, S w).

(** *** Hotel providers *)

Definition three_hotels : list hotel :=
  [ {| hotelId := Some "H1" |}; {| hotelId := Some "H2" |};
    {| hotelId := Some "H3" |} ].

Definition hotels_three (_ : string) (w : W) : outcome (list hotel) * W :=
  (Returned three_hotels, S w).

Definition mk_offer (total room : string) : offer :=
  {| price_total := total; price_currency := "EUR";
     room_description_text := room |}.

(** Offers at 120.00 and 95.50, the lower price twice. *)
Definition offers_two_prices : list hotel_offer :=
  [ {| hotel_name := "Hotel A"; offers := [mk_offer "120.00" "Double"] |};
    {| hotel_name := "Hotel B";
       offers := [mk_offer "95.50" "Single"; mk_offer "95.50" "Twin"] |};
    {| hotel_name := "Hotel C"; offers := [mk_offer "95.50" "Suite"] |} ].

(** A single offer at 10^12. *)
Definition offers_at_sentinel : list hotel_offer :=
  [ {| hotel_name := "Hotel A";
       offers := [mk_offer "1000000000000" "Double"] |} ].

(** Offers at 10^12 and above. *)
Definition offers_above_sentinel : list hotel_offer :=
  [ {| hotel_name := "Hotel A";
       offers := [mk_offer "1000000000000" "Double";
                  mk_offer "2500000000000.00" "Suite"] |} ].

(** Answers a query for identifiers with [data], a query for none with no
    result. *)
Definition offers_when_asked (data : list hotel_offer)
    (hotelIds : list (option string)) (_ : Z) (_ _ : string) (w : W)
    : outcome (option (list hotel_offer)) * W :=
  match hotelIds with
  | [] => (Returned None, S w)
  | _ :: _ => (Returned (Some data), S w)
  end.

(** Never has a result. *)
Definition offers_never (_ : list (option string)) (_ : Z) (_ _ : string)
    (w : W) : outcome (option (list hotel_offer)) * W :=
  (Returned None, S w).

(** No result on the first two calls after the listing, then as
    [offers_when_asked]. *)
Definition offers_flaky (data : list hotel_offer)
    (hotelIds : list (option string)) (adults : Z) (cin cout : string)
    (w : W) : outcome (option (list hotel_offer)) * W :=
  if (w <? 3)%nat then (Returned None, S w)
  else offers_when_asked data hotelIds adults cin cout w.

(** *** Rate provider *)

Definition rates_down (_ : string) (w : W) : outcome rates_data * W :=
  (Raised, S w).

(** A table with the single rate USD = 1.08. *)
Definition rate_1_08 : float := S754_finite false 4863887597560136 (-52).

Definition rates_usd (_ : string) (w : W) : outcome rates_data * W :=
  (Returned (DataObject (Some {[ "USD" := VFloat rate_1_08 ]})), S w).

(** *** Models *)

Definition about_you_call : tool_call :=
  {| tc_name := "about_you"; tc_args := NoFields; tc_id := "call_1" |}.

(** Asks for [about_you] after a user message, answers otherwise. *)
Definition model_about_you (history : list message) (w : W)
    : outcome (string * list tool_call) * W :=
  match last history with
  | Some (HumanMessage _) => (Returned ("", [about_you_call]), S w)
  | _ => (Returned ("I can search hotel offers.", []), S w)
  end.

(** Answers at once. *)
Definition model_hello (_ : list message) (w : W)
    : outcome (string * list tool_call) * W :=
  (Returned ("Hello!", []), S w).

(** Asks for a city and for [about_you] in one reply, then answers. *)
Definition model_two_calls (history : list message) (w : W)
    : outcome (string * list tool_call) * W :=
  match last history with
  | Some (HumanMessage _) =>
      (Returned ("", [ {| tc_name := "get_iata_of_city";
                          tc_args := ToolFields0 "Athens" "GR";
                          tc_id := "call_a" |};
                       {| tc_name := "about_you"; tc_args := NoFields;
                          tc_id := "call_b" |} ]), S w)
  | _ => (Returned ("Done.", []), S w)
  end.

(** *** Inputs *)

(** 100.00 as a float. *)
Definition hundred : float := S754_finite false 7036874417766400 (-46).

Definition question : AgentState :=
  {| messages := [SystemMessage system_prompt;
                  HumanMessage "What can you do?"];
     number_of_steps := None |}.

(** *** More scripts *)

(** A second record with the code of [athens_gr]. *)
Definition athens_old : city_record :=
  {| city_name := VStr "Athens (Ellinikon)";
     city_iataCode := Some "ATH";
     city_address := {[ "countryCode" := VStr "GR" ]};
     city_geoCode := {[ "latitude" := VInt 37; "longitude" := VInt 23 ]} |}.

Definition hotels_down (_ : string) (w : W) : outcome (list hotel) * W :=
  (Raised, S w).

(** Answers a query for identifiers with [data], raises on a query for
    none. *)
Definition offers_fault_on_none (data : list hotel_offer)
    (hotelIds : list (option string)) (_ : Z) (_ _ : string) (w : W)
    : outcome (option (list hotel_offer)) * W :=
  match hotelIds with
  | [] => (Raised, S w)
  | _ :: _ => (Returned (Some data), S w)
  end.

(** An offer without a price beside a priced one. *)
Definition offers_bad_total : list hotel_offer :=
  [ {| hotel_name := "Hotel A";
       offers := [mk_offer "80.00" "Double"; mk_offer "n/a" "Suite"] |} ].

(** A reply that is an object without the rate table. *)
Definition rates_error_body (_ : string) (w : W) : outcome rates_data * W :=
  (Returned (DataObject None), S w).

Definition book_hotel_call : tool_call :=
  {| tc_name := "book_hotel"; tc_args := NoFields; tc_id := "call_2" |}.

Definition price_call : tool_call :=
  {| tc_name := "get_price_in_wanted_currency";
     tc_args := ToolFields2 "USD" "EUR" hundred;
     tc_id := "call_3" |}.



Definition model_down (_ : list message) (w : W)
    : outcome (string * list tool_call) * W :=
  (Raised, S w).

(** Asks for a conversion after a user message, answers otherwise. *)
Definition model_price (history : list message) (w : W)
    : outcome (string * list tool_call) * W :=
  match last history with
  | Some (HumanMessage _) => (Returned ("", [price_call]), S w)
  | _ => (Returned ("About 108 dollars.", []), S w)
  end.

End Script.

(** ** The collaborators and the effect monad *)

Section Agent.

(** The state of everything outside the program. *)
Variable World : Type.

(** [amadeus.reference_data.locations.cities.get(keyword=...).data] *)
Variable cities_get : string -> World -> outcome (list city_record) * World.

(** [amadeus.reference_data.locations.hotels.by_city.get(cityCode=...)],
    read through [.data]. *)
Variable hotels_by_city : string -> World -> outcome (list hotel) * World.

(** [amadeus.shopping.hotel_offers_search.get(hotelIds=..., adults=...,
    checkInDate=..., checkOutDate=...)]: an exception, a falsy reply
    ([None]), or a reply carrying [.data]. *)
Variable offers_search :
  list (option string) -> Z -> string -> string ->
  World -> outcome (option (list hotel_offer)) * World.

(** [requests.get(url).json()] for the rate table of a currency. *)
Variable rates_get : string -> World -> outcome rates_data * World.

(** [model.invoke(messages)]: the content and the tool calls of the reply. *)
Variable model_invoke :
  list message -> World -> outcome (string * list tool_call) * World.

(** Python's [float] on a string; [None] when it raises. *)
Variable py_float : string -> option float.

(** A computation: runs on a machine, ends in a value or an exception. *)
Definition M (A : Type) : Type :=
  machine World -> outcome A * machine World.

#[local] Instance M_ret : MRet M := fun A a s => (Returned a, s).
#[local] Instance M_bind : MBind M := fun A B f m s =>
  match m s with
  | (Returned a, s') => f a s'
  | (Raised, s') => (Raised, s')
  end.

Definition raise {A : Type} : M A := fun s => (Raised, s).

(** [try: body except: handler] with a bare [except]. *)
Definition try_except {A : Type} (body handler : M A) : M A := fun s =>
  match body s with
  | (Returned a, s') => (Returned a, s')
  | (Raised, s') => handler s'
  end.

(** A call to a collaborator, written to the log. *)
Definition external {A : Type} (f : World -> outcome A * World)
    (ev : outcome A -> event) : M A := fun s =>
  let '(r, w) := f (world s) in
  (r, {| world := w; log := log s ++ [ev r] |}).

(** A pure step that may raise. *)
Definition lift {A : Type} (r : outcome A) : M A := fun s => (r, s).

(** ** [get_iata_of_city] *)

(** The body of [for i in reducedCityNames]: the entry of [iata] is reset,
    then receives ['name'], every key of the address and every key of the
    geoCode, a later write replacing an earlier one. *)
Definition city_entry (i : city_record) : gmap string value :=
  city_geoCode i ∪ (city_address i ∪ {[ "name" := city_name i ]}).

Definition fill_outputDict (reducedCityNames : list city_record)
    (outputDict : gmap (option string) (gmap string value))
    : gmap (option string) (gmap string value) :=
  foldl (fun d i => <[ city_iataCode i := city_entry i ]> d)
        outputDict reducedCityNames.

(** [v == s] for the result [v] of a [dict.get] and a string [s]. *)
Definition eq_str (v : option value) (s : string) : bool :=
  match v with
  | Some (VStr t) => bool_decide (t = s)
  | _ => false
  end.

Definition country_matches (country : string) (i : city_record) : bool :=
  eq_str (city_address i !! "countryCode") country.

Definition get_iata_of_city (city country : string) : M tool_response :=
  try_except
    (cities ← external (cities_get city) (fun _ => CitiesGet city);
     let reducedCityNames := List.filter (country_matches country) cities in
     let reducedCityNames :=
       if (length reducedCityNames =? 0)%nat then cities
       else reducedCityNames in
     mret (IataDict (fill_outputDict reducedCityNames ∅)))
    (mret (ErrorDict "The city not found (no IATA code).")).

(** ** [get_best_offer] *)

Definition status_of (r : outcome (option (list hotel_offer))) : status :=
  match r with
  | Raised => Faulted
  | Returned None => NoResult
  | Returned (Some _) => GotResult
  end.

(** The truth value of [req]. *)
Definition truthy (req : option (list hotel_offer)) : bool :=
  match req with Some _ => true | None => false end.

(** [while not req and j < 5: j += 1; req = ...get(...)]. The loop runs at
    most five times; [fuel] only carries the recursion. *)
Fixpoint while_not_req (fuel : nat) (hotelIds : list (option string))
    (people : Z) (checkInDate checkOutDate : string)
    (j : nat) (req : option (list hotel_offer))
    : M (option (list hotel_offer)) :=
  if negb (truthy req) && (j <? 5)%nat then
    match fuel with
    | O => mret req
    | S fuel' =>
        let j := S j in
        req ← external
                (offers_search hotelIds people checkInDate checkOutDate)
                (fun r => OffersSearch hotelIds people checkInDate
                            checkOutDate (status_of r));
        while_not_req fuel' hotelIds people checkInDate checkOutDate j req
    end
  else mret req.

(** [for i in range(0, 99, 50)]: one retried query per batch; a truthy reply
    adds its [.data] to [hotelOffers]. *)
Fixpoint for_batches (batches : list nat) (ids : list (option string))
    (people : Z) (checkInDate checkOutDate : string)
    (hotelOffers : list hotel_offer) : M (list hotel_offer) :=
  match batches with
  | [] => mret hotelOffers
  | i :: batches' =>
      req ← while_not_req 5 (slice ids i (i + 50)) people checkInDate
              checkOutDate 0 None;
      for_batches batches' ids people checkInDate checkOutDate
        (match req with
         | Some data => hotelOffers ++ data
         | None => hotelOffers
         end)
  end.

(** The initial [bestprice], the integer 1000000000000. Python compares a
    float with an integer by value, and this integer is a binary64 number,
    so the comparison is the one of floats. *)
Definition bestprice0 : float :=
  Eval vm_compute in float_of_int 1000000000000.

Definition make_bestOffer (hotelOffer : hotel_offer) (o : offer)
    (people : Z) (checkInDate checkOutDate : string) : best_offer :=
  {| hotelName := hotel_name hotelOffer;
     offerTotalAccommodationAmount := price_total o;
     offerCurrency := price_currency o;
     offerRoomDescription := room_description_text o;
     people := people;
     checkInDate := checkInDate;
     checkOutDate := checkOutDate |}.

(** [for offer in hotelOffer['offers']] on the pair
    [(bestprice, bestOffer)]. *)
Fixpoint for_offers (hotelOffer : hotel_offer) (os : list offer)
    (people : Z) (checkInDate checkOutDate : string)
    (best : float * option best_offer)
    : outcome (float * option best_offer) :=
  match os with
  | [] => Returned best
  | o :: os' =>
      match py_float (price_total o) with
      | None => Raised
      | Some currentPrice =>
          for_offers hotelOffer os' people checkInDate checkOutDate
            (if lt currentPrice (fst best)
             then (currentPrice,
                   Some (make_bestOffer hotelOffer o people checkInDate
                           checkOutDate))
             else best)
      end
  end.

(** [for hotelOffer in hotelOffers]. *)
Fixpoint for_hotelOffers (hotelOffers : list hotel_offer)
    (people : Z) (checkInDate checkOutDate : string)
    (best : float * option best_offer)
    : outcome (float * option best_offer) :=
  match hotelOffers with
  | [] => Returned best
  | hotelOffer :: rest =>
      match for_offers hotelOffer (offers hotelOffer) people checkInDate
              checkOutDate best with
      | Raised => Raised
      | Returned best' =>
          for_hotelOffers rest people checkInDate checkOutDate best'
      end
  end.

(** [return bestOffer]: the dictionary, or [None] when nothing was
    recorded. *)
Definition return_bestOffer (bestOffer : option best_offer) : tool_response :=
  match bestOffer with
  | Some o => OfferDict o
  | None => PyNone
  end.

(** Lines 68-82: the listing and the two retried batch queries. *)
Definition retrieve_hotelOffers (iataCityCode : string) (people : Z)
    (checkInDate checkOutDate : string) : M (list hotel_offer) :=
  hotels ← external (hotels_by_city iataCityCode)
             (fun _ => HotelsByCity iataCityCode);
  let ids := map hotelId hotels in
  for_batches (range 0 99 50) ids people checkInDate checkOutDate [].

Definition get_best_offer (iataCityCode : string) (people : Z)
    (checkInDate checkOutDate : string) : M tool_response :=
  try_except
    (hotelOffers ← retrieve_hotelOffers iataCityCode people checkInDate
                     checkOutDate;
     best ← lift (for_hotelOffers hotelOffers people checkInDate
                    checkOutDate (bestprice0, None));
     mret (return_bestOffer (snd best)))
    (mret (ErrorDict "No Offers Found")).

(** ** [get_price_in_wanted_currency] *)

(** [float(v)] for a JSON leaf. *)
Definition float_of_value (v : value) : outcome float :=
  match v with
  | VFloat f => Returned f
  | VInt n => py_float_of_int n
  | VStr s => match py_float s with Some f => Returned f | None => Raised end
  | VNone => Raised
  end.

(** No [try] here: whatever the request, the decoding, the subscript or the
    conversion raises leaves the function. *)
Definition get_price_in_wanted_currency
    (wantedCurrency currentCurrency : string) (price : float)
    : M tool_response :=
  data ← external (rates_get currentCurrency)
           (fun _ => RatesGet currentCurrency);
  match data with
  | DataObject None => raise
  | DataObject (Some conversion_rates) =>
      match conversion_rates !! wantedCurrency with
      | Some v =>
          x ← lift (float_of_value v);
          mret (PriceDict (SFmul prec emax price x))
      | None => mret (ErrorDict "Could Not Estimate Price")
      end
  | DataFalsy => mret (ErrorDict "Could Not Estimate Price")
  end.

(** ** [about_you] *)

Definition about_you_response : tool_response :=
  ServicesInfo "You can search for the best hotel offers for the city you want based on your travel criteria. You can also get the offer at the currency you prefer. ".

Definition about_you : M tool_response := mret about_you_response.

(** ** The tool registry *)

(** A tool as [@tool(name, args_schema=..., return_direct=...)] declares it.
    [invoke] checks the arguments against the schema: it raises when a
    field of the schema is missing, and drops what the schema does not
    name. *)
Record tool : Type := {
  tool_name : string;
  return_direct : bool;
  invoke : tool_args -> M tool_response
}.

Definition get_iata_of_city_tool : tool :=
  {| tool_name := "get_iata_of_city";
     return_direct := false;
     invoke := fun args =>
       match args with
       | ToolFields0 city country => get_iata_of_city city country
       | _ => raise
       end |}.

Definition get_best_offer_tool : tool :=
  {| tool_name := "get_best_offer";
     return_direct := false;
     invoke := fun args =>
       match args with
       | ToolFields1 iataCityCode people checkInDate checkOutDate =>
           get_best_offer iataCityCode people checkInDate checkOutDate
       | _ => raise
       end |}.

Definition get_price_in_wanted_currency_tool : tool :=
  {| tool_name := "get_price_in_wanted_currency";
     return_direct := false;
     invoke := fun args =>
       match args with
       | ToolFields2 wantedCurrency currentCurrency price =>
           get_price_in_wanted_currency wantedCurrency currentCurrency price
       | _ => raise
       end |}.

(** [about_you] has no schema of its own: no field can be missing, and
    whatever arguments come with the request are dropped. *)
Definition about_you_tool : tool :=
  {| tool_name := "about_you";
     return_direct := true;
     invoke := fun _ => about_you |}.

Definition tools : list tool :=
  [ get_iata_of_city_tool; get_best_offer_tool;
    get_price_in_wanted_currency_tool; about_you_tool ].

(** [{tool.name: tool for tool in tools}] *)
Definition tools_by_name : gmap string tool :=
  foldl (fun d t => <[ tool_name t := t ]> d) ∅ tools.

(** ** The graph *)

(** The reducer [add_messages], on messages without identifiers of their
    own: the update is appended. *)
Definition add_messages (state : AgentState) (update : list message)
    : AgentState :=
  {| messages := messages state ++ update;
     number_of_steps := number_of_steps state |}.

Definition calling_model (state : AgentState) : M (list message) :=
  model_response ← external (model_invoke (messages state))
                     (fun _ => ModelInvoke (messages state));
  mret [AIMessage (fst model_response) (snd model_response)].

(** [messages[-1].tool_calls]: only an [AIMessage] has the attribute. *)
Definition last_tool_calls (ms : list message) : outcome (list tool_call) :=
  match last ms with
  | Some (AIMessage _ tcs) => Returned tcs
  | _ => Raised
  end.

Definition tell (e : event) : M unit := fun s =>
  (Returned tt, {| world := world s; log := log s ++ [e] |}).

(** [for tool_call in ...: results.append(ToolMessage(...))] *)
Fixpoint for_tool_calls (tcs : list tool_call) (results : list message)
    : M (list message) :=
  match tcs with
  | [] => mret results
  | tool_call :: tcs' =>
      match tools_by_name !! tc_name tool_call with
      | None => raise
      | Some t =>
          _ ← tell (ToolInvoke tool_call);
          tool_response ← invoke t (tc_args tool_call);
          for_tool_calls tcs'
            (results ++ [ToolMessage tool_response (tc_name tool_call)
                           (tc_id tool_call)])
      end
  end.

Definition calling_tools (state : AgentState) : M (list message) :=
  tcs ← lift (last_tool_calls (messages state));
  for_tool_calls tcs [].

Definition continue_or_end (state : AgentState) : outcome string :=
  match last_tool_calls (messages state) with
  | Raised => Raised
  | Returned [] => Returned "end"
  | Returned (_ :: _) => Returned "continue"
  end.

Inductive node : Type := thought_llm | tool_set | END.

(** The mapping given to [add_conditional_edges]. *)
Definition conditional_edges (key : string) : option node :=
  if bool_decide (key = "continue") then Some tool_set
  else if bool_decide (key = "end") then Some END
  else None.

(** The compiled graph, run from a node: [thought_llm] is followed by the
    node [continue_or_end] selects, [tool_set] by [thought_llm]. Each node
    executed takes one unit of [fuel]; [None] is a run cut short. *)
Fixpoint run_graph (fuel : nat) (at_node : node) (state : AgentState)
    : M (option AgentState) :=
  match at_node with
  | END => mret (Some state)
  | thought_llm =>
      match fuel with
      | O => mret None
      | S fuel' =>
          update ← calling_model state;
          let state := add_messages state update in
          key ← lift (continue_or_end state);
          match conditional_edges key with
          | Some next => run_graph fuel' next state
          | None => raise
          end
      end
  | tool_set =>
      match fuel with
      | O => mret None
      | S fuel' =>
          update ← calling_tools state;
          run_graph fuel' thought_llm (add_messages state update)
      end
  end.

(** [workflow.set_entry_point("thought_llm")] *)
Definition graph (fuel : nat) (inputs : AgentState) : M (option AgentState) :=
  run_graph fuel thought_llm inputs.

(** ** [predict] *)

(** The content of the last message of the last state streamed. *)
Definition predict (fuel : nat) (message : string)
    (history : list (role * string)) : M (option content) :=
  let chat_messages :=
    ([SystemMessage system_prompt] ++ map chat_message history
       ++ [HumanMessage message])%list in
  let inputs := {| messages := chat_messages; number_of_steps := None |} in
  final ← graph fuel inputs;
  match final with
  | None => mret None
  | Some state =>
      match last (messages state) with
      | Some last_message => mret (Some (message_content last_message))
      | None => raise
      end
  end.

(** ** The order the nested loops of [get_best_offer] visit the offers in *)

Definition scan_order (hotelOffers : list hotel_offer)
    : list (hotel_offer * offer) :=
  flat_map (fun h => map (fun o => (h, o)) (offers h)) hotelOffers.

(** One pass of the loop body, on a visited pair. *)
Fixpoint scan (visited : list (hotel_offer * offer))
    (people : Z) (checkInDate checkOutDate : string)
    (best : float * option best_offer)
    : outcome (float * option best_offer) :=
  match visited with
  | [] => Returned best
  | (h, o) :: rest =>
      match py_float (price_total o) with
      | None => Raised
      | Some currentPrice =>
          scan rest people checkInDate checkOutDate
            (if lt currentPrice (fst best)
             then (currentPrice,
                   Some (make_bestOffer h o people checkInDate checkOutDate))
             else best)
      end
  end.

(** The price of a visited pair, once converted. *)
Definition price_of (x : hotel_offer * offer) : option float :=
  py_float (price_total (snd x)).

(** What the retry loop leaves in the log, and how it ends, with [n]
    attempts left. *)
Inductive attempts :
    nat -> list status -> outcome (option (list hotel_offer)) -> Prop :=
  | attempts_gave_up : attempts 0 [] (Returned None)
  | attempts_result n data : attempts (S n) [GotResult] (Returned (Some data))
  | attempts_fault n : attempts (S n) [Faulted] Raised
  | attempts_retry n sts r :
      attempts n sts r -> attempts (S n) (NoResult :: sts) r.

(** The tool calls dispatched according to a log, and the histories the
    model was invoked on. *)
Definition tool_events (l : list event) : list tool_call :=
  omap (fun e => match e with ToolInvoke tc => Some tc | _ => None end) l.

Definition model_events (l : list event) : list (list message) :=
  omap (fun e => match e with ModelInvoke h => Some h | _ => None end) l.


(** The [ToolMessage] built for a request and the response of its tool. *)
Definition tool_message (tc : tool_call) (r : tool_response) : message :=
  ToolMessage r (tc_name tc) (tc_id tc).

(** The [.data] a finished batch contributes. *)
Definition batch_data (req : option (list hotel_offer)) : list hotel_offer :=
  match req with Some data => data | None => [] end.

(** A computation is quiet when it logs no tool dispatch. *)
Definition quiet {A : Type} (m : M A) : Prop :=
  forall s, tool_events (log (snd (m s))) = tool_events (log s).

(** A request for one of the tools that catch whatever is raised inside
    them, with arguments of its schema. *)
Definition catching_request (tc : tool_call) : Prop :=
  (tc_name tc = "get_iata_of_city"
   /\ exists city country, tc_args tc = ToolFields0 city country)
  \/ (tc_name tc = "get_best_offer"
      /\ exists iataCityCode people checkInDate checkOutDate,
           tc_args tc
           = ToolFields1 iataCityCode people checkInDate checkOutDate)
  \/ (tc_name tc = "about_you" /\ tc_args tc = NoFields).

(** The messages one run of the graph appends: replies with tool calls,
    each followed by the results of its calls, then a reply without. *)
Inductive rounds : list message -> Prop :=
  | rounds_answer c : rounds [AIMessage c []]
  | rounds_acting c tc tcs responses rest :
      length responses = length (tc :: tcs) ->
      rounds rest ->
      rounds (AIMessage c (tc :: tcs)
                :: zip_with tool_message (tc :: tcs) responses ++ rest).

(** A run of the graph from a history [h], call by call: the messages it
    appends, the histories the model is invoked on, and the requests
    dispatched. Each reply with tool calls is followed by the results of
    its calls, and the next invocation is on the history so extended. *)
Inductive run_trace :
    list message -> list message -> list (list message) -> list tool_call
    -> Prop :=
  | run_trace_answer h c : run_trace h [AIMessage c []] [h] []
  | run_trace_acting h c tc tcs responses rest invoked dispatched :
      length responses = length (tc :: tcs) ->
      run_trace
        (h ++ AIMessage c (tc :: tcs)
           :: zip_with tool_message (tc :: tcs) responses)
        rest invoked dispatched ->
      run_trace h
        (AIMessage c (tc :: tcs)
           :: zip_with tool_message (tc :: tcs) responses ++ rest)
        (h :: invoked) ((tc :: tcs) ++ dispatched).

(** A computation is mute when it logs no invocation of the model. *)
Definition mute {A : Type} (m : M A) : Prop :=
  forall s, model_events (log (snd (m s))) = model_events (log s).

(** The requests [tcs] served one after the other from a machine: each
    names a registered tool, the tool is invoked with the arguments of the
    request and returns; the values returned, in order, and the machine
    left. *)
Inductive dispatched :
    list tool_call -> machine World -> list tool_response -> machine World
    -> Prop :=
  | dispatched_nil s : dispatched [] s [] s
  | dispatched_cons tc tcs t s r s1 responses s' :
      tools_by_name !! tc_name tc = Some t ->
      invoke t (tc_args tc)
        {| world := world s; log := log s ++ [ToolInvoke tc] |}
      = (Returned r, s1) ->
      dispatched tcs s1 responses s' ->
      dispatched (tc :: tcs) s (r :: responses) s'.

(** * Properties *)

(** ** Order of floats *)

Ltac float_cases :=
  unfold lt, le, SFltb, SFleb, SFcompare, is_nan;
  intros;
  repeat match goal with
         | x : spec_float |- _ => destruct x
         | s : bool |- _ => destruct s
         end;
  simpl in *; try congruence;
  change (Pos.compare_cont Eq) with Pos.compare in *;
  repeat match goal with
         | H : context [Z.compare ?x ?y] |- _ =>
             destruct (Z.compare_spec x y); simpl in H; try discriminate H
         | H : context [Pos.compare ?x ?y] |- _ =>
             destruct (Pos.compare_spec x y); simpl in H; try discriminate H
         end;
  repeat match goal with
         | |- context [Z.compare ?x ?y] =>
             destruct (Z.compare_spec x y); simpl
         | |- context [Pos.compare ?x ?y] =>
             destruct (Pos.compare_spec x y); simpl
         end;
  try congruence; try lia.

Lemma lt_irrefl a : lt a a = false.
Proof. revert a. float_cases. Qed.

Lemma lt_trans a b c : lt a b = true -> lt b c = true -> lt a c = true.
Proof. revert a b c. float_cases. Qed.

Lemma le_lt_trans a b c : le a b = true -> lt b c = true -> lt a c = true.
Proof. revert a b c. float_cases. Qed.

Lemma not_lt_le a b :
  is_nan a = false -> is_nan b = false -> lt a b = false -> le b a = true.
Proof. revert a b. float_cases. Qed.

Lemma lt_not_nan a b : lt a b = true -> is_nan a = false /\ is_nan b = false.
Proof. revert a b. float_cases; auto. Qed.

Lemma le_not_lt a b : le a b = true -> lt b a = false.
Proof. revert a b. float_cases. Qed.

(** ** The reduction of [get_best_offer] *)

Lemma for_offers_scan h os people cin cout best :
  for_offers h os people cin cout best
  = scan (map (fun o => (h, o)) os) people cin cout best.
Proof.
  revert best. induction os as [|o os IH]; intros best; simpl; [done|].
  destruct (py_float (price_total o)); [apply IH | done].
Qed.

Lemma scan_app l1 l2 people cin cout best :
  scan (l1 ++ l2) people cin cout best
  = match scan l1 people cin cout best with
    | Returned best' => scan l2 people cin cout best'
    | Raised => Raised
    end.
Proof.
  revert best. induction l1 as [|[h o] l1 IH]; intros best; simpl; [done|].
  destruct (py_float (price_total o)); [apply IH | done].
Qed.

Lemma for_hotelOffers_scan hos people cin cout best :
  for_hotelOffers hos people cin cout best
  = scan (scan_order hos) people cin cout best.
Proof.
  revert best. induction hos as [|h hos IH]; intros best; simpl; [done|].
  rewrite scan_app, for_offers_scan.
  destruct (scan _ _ _ _ best); [apply IH | done].
Qed.

Lemma lt_asym a b : lt a b = true -> lt b a = false.
Proof.
  intros Hab. destruct (lt b a) eqn:Hba; [|done].
  pose proof (lt_trans _ _ _ Hab Hba) as Haa.
  by rewrite lt_irrefl in Haa.
Qed.

Lemma lt_not_le a b : lt a b = true -> le b a = false.
Proof.
  intros Hab. destruct (le b a) eqn:Hba; [|done].
  apply le_not_lt in Hba. congruence.
Qed.

(** The scan keeps the lowest price seen so far and the record of the first
    pair that reached it. *)
Lemma scan_spec l people cin cout b rec b' rec' :
  scan l people cin cout (b, rec) = Returned (b', rec') ->
  (forall x f, x ∈ l -> price_of x = Some f -> lt f b' = false)
  /\ ((b' = b /\ rec' = rec)
      \/ exists k h o,
           l !! k = Some (h, o)
           /\ py_float (price_total o) = Some b'
           /\ rec' = Some (make_bestOffer h o people cin cout)
           /\ lt b' b = true
           /\ forall j x f, (j < k)%nat -> l !! j = Some x ->
                price_of x = Some f -> le f b' = false).
Proof.
  revert b rec. induction l as [|[h o] l IH]; intros b rec Hscan.
  - simpl in Hscan. injection Hscan as -> ->.
    split; [intros x f Hx; by apply elem_of_nil in Hx | by left].
  - simpl in Hscan.
    destruct (py_float (price_total o)) as [c|] eqn:Hc; [|done].
    simpl in Hscan. destruct (lt c b) eqn:Hcb.
    + apply IH in Hscan as [Hmin Hwho]. split.
      * intros x f Hx Hf. apply elem_of_cons in Hx as [->|Hx]; [|by eauto].
        unfold price_of in Hf; simpl in Hf. rewrite Hc in Hf.
        injection Hf as <-.
        destruct Hwho as [[-> _]|(k & h' & o' & _ & _ & _ & Hlt & _)].
        -- apply lt_irrefl.
        -- by apply lt_asym.
      * right. destruct Hwho as [[-> ->]|(k & h' & o' & Hk & Hp & Hr & Hlt & Hfirst)].
        -- exists 0%nat, h, o. repeat split; try done. intros j x f Hj; lia.
        -- exists (S k), h', o'. repeat split; try done.
           ++ by eapply lt_trans.
           ++ intros [|j] x f Hj Hx Hf.
              ** simpl in Hx. injection Hx as <-.
                 unfold price_of in Hf; simpl in Hf. rewrite Hc in Hf.
                 injection Hf as <-. by apply lt_not_le.
              ** simpl in Hx. eapply Hfirst; [|done..]. lia.
    + apply IH in Hscan as [Hmin Hwho]. split.
      * intros x f Hx Hf. apply elem_of_cons in Hx as [->|Hx]; [|by eauto].
        unfold price_of in Hf; simpl in Hf. rewrite Hc in Hf.
        injection Hf as <-.
        destruct Hwho as [[-> _]|(k & h' & o' & _ & _ & _ & Hlt & _)]; [done|].
        destruct (lt c b') eqn:Hcb'; [|done].
        pose proof (lt_trans _ _ _ Hcb' Hlt). congruence.
      * destruct Hwho as [?|(k & h' & o' & Hk & Hp & Hr & Hlt & Hfirst)];
          [by left|right].
        exists (S k), h', o'. repeat split; try done.
        intros [|j] x f Hj Hx Hf.
        -- simpl in Hx. injection Hx as <-.
           unfold price_of in Hf; simpl in Hf. rewrite Hc in Hf.
           injection Hf as <-.
           destruct (le c b') eqn:Hle; [|done].
           pose proof (le_lt_trans _ _ _ Hle Hlt). congruence.
        -- simpl in Hx. eapply Hfirst; [|done..]. lia.
Qed.

(** The scan raises only when a total does not convert. *)
Lemma scan_returns l people cin cout best :
  (forall x, x ∈ l -> is_Some (price_of x)) ->
  exists best', scan l people cin cout best = Returned best'.
Proof.
  revert best. induction l as [|[h o] l IH]; intros best Hconv; simpl.
  - by eexists.
  - destruct (Hconv (h, o)) as [c Hc]; [by left|].
    unfold price_of in Hc; simpl in Hc. rewrite Hc.
    apply IH. intros x Hx. apply Hconv. by right.
Qed.

(** Nothing is recorded while no price is below the current [bestprice]. *)
Lemma scan_unchanged l people cin cout best :
  (forall x, x ∈ l -> exists f, price_of x = Some f /\ lt f (fst best) = false) ->
  scan l people cin cout best = Returned best.
Proof.
  induction l as [|[h o] l IH]; intros Hhigh; simpl; [done|].
  destruct (Hhigh (h, o)) as (c & Hc & Hlt); [by left|].
  unfold price_of in Hc; simpl in Hc. rewrite Hc, Hlt.
  apply IH. intros x Hx. apply Hhigh. by right.
Qed.

(** ** The retried batch queries *)

Ltac unfold_M :=
  unfold mbind, M_bind, mret, M_ret, external, lift, raise, try_except, tell.

Lemma attempts_length n sts r : attempts n sts r -> (length sts <= n)%nat.
Proof. induction 1; simpl; lia. Qed.

Lemma attempts_queried n sts r : attempts (S n) sts r -> (1 <= length sts)%nat.
Proof. inversion 1; simpl; lia. Qed.


Lemma attempts_fault_iff n sts r : attempts n sts r -> Faulted ∈ sts <-> r = Raised.
Proof.
  induction 1.
  - split; [intros H; by apply elem_of_nil in H | done].
  - split; [intros H | done].
    apply elem_of_cons in H as [?|H]; [done | by apply elem_of_nil in H].
  - split; [done | intros _; by left].
  - rewrite <- IHattempts. split; [|by right].
    intros H'. by apply elem_of_cons in H' as [?|?].
Qed.


Lemma attempts_gave_up_inv n sts : attempts n sts (Returned None) -> sts = replicate n NoResult.
Proof.
  intros H. remember (Returned None) as r eqn:Hr.
  induction H; try done. simpl. by rewrite IHattempts.
Qed.

(** The retry loop, started with [req = None] after [j] attempts. *)
Lemma while_not_req_attempts fuel hotelIds people cin cout j s :
  (5 - j <= fuel)%nat ->
  exists sts,
    attempts (5 - j) sts
      (fst (while_not_req fuel hotelIds people cin cout j None s))
    /\ log (snd (while_not_req fuel hotelIds people cin cout j None s))
       = log s ++ map (OffersSearch hotelIds people cin cout) sts.
Proof.
  revert j s. induction fuel as [|fuel IH]; intros j s Hfuel.
  - exists []. simpl. replace (5 - j)%nat with 0%nat by lia.
    destruct (j <? 5)%nat; simpl; unfold_M; simpl;
      (split; [constructor | by rewrite app_nil_r]).
  - simpl. destruct (j <? 5)%nat eqn:Hj.
    + apply Nat.ltb_lt in Hj.
      replace (5 - j)%nat with (S (5 - S j)) by lia.
      unfold_M.
      destruct (offers_search hotelIds people cin cout (world s))
        as [[[data|]|] w] eqn:Hcall; simpl.
      * exists [GotResult]. destruct fuel; simpl; unfold_M; simpl;
          (split; [constructor | done]).
      * destruct (IH (S j)
                    {| world := w;
                       log := log s ++ [OffersSearch hotelIds people cin cout
                                          NoResult] |})
          as (sts & Hsts & Hlog); [lia|].
        exists (NoResult :: sts). split; [by constructor|].
        rewrite Hlog. simpl. by rewrite <- app_assoc.
      * exists [Faulted]. split; [constructor | done].
    + apply Nat.ltb_ge in Hj. replace (5 - j)%nat with 0%nat by lia.
      exists []. unfold_M; simpl. split; [constructor | by rewrite app_nil_r].
Qed.

Example range_0_99_50 : range 0 99 50 = [0; 50]%nat.
Proof. reflexivity. Qed.

Lemma bind_run {A B : Type} (m : M A) (f : A -> M B) s :
  (m ≫= f) s
  = match m s with
    | (Returned a, s') => f a s'
    | (Raised, s') => (Raised, s')
    end.
Proof. reflexivity. Qed.

Lemma external_run {A : Type} (f : World -> outcome A * World) ev s r w :
  f (world s) = (r, w) ->
  external f ev s = (r, {| world := w; log := log s ++ [ev r] |}).
Proof. intros H. unfold external. by rewrite H. Qed.

(** The listing and the two batches, call by call. *)
Lemma retrieve_hotelOffers_spec iata people cin cout s hotels w :
  hotels_by_city iata (world s) = (Returned hotels, w) ->
  let ids := map hotelId hotels in
  let ev i := OffersSearch (slice ids i (i + 50)) people cin cout in
  let run := retrieve_hotelOffers iata people cin cout s in
  exists s0 r0,
    attempts 5 s0 r0
    /\ match r0 with
       | Raised =>
           fst run = Raised
           /\ log (snd run) = log s ++ HotelsByCity iata :: map (ev 0%nat) s0
       | Returned req0 =>
           exists s1 r1,
             attempts 5 s1 r1
             /\ log (snd run)
                = log s ++ HotelsByCity iata
                    :: map (ev 0%nat) s0 ++ map (ev 50%nat) s1
             /\ fst run
                = match r1 with
                  | Raised => Raised
                  | Returned req1 =>
                      Returned (batch_data req0 ++ batch_data req1)
                  end
       end.
Proof.
  intros Hlist ids ev run. subst run ev.
  unfold retrieve_hotelOffers. rewrite range_0_99_50.
  rewrite bind_run, (external_run _ _ _ _ _ Hlist). fold ids.
  set (m1 := {| world := w; log := log s ++ [HotelsByCity iata] |}).
  cbn [for_batches]. rewrite bind_run.
  destruct (while_not_req_attempts 5 (slice ids 0 (0 + 50)) people cin cout
              0 m1) as (st0 & H0 & Hlog0); [lia|].
  change (5 - 0)%nat with 5%nat in H0.
  exists st0. eexists. split; [exact H0|].
  destruct (while_not_req 5 (slice ids 0 (0 + 50)) people cin cout 0 None m1)
    as [[req0|] m2]; cbn [fst snd] in H0, Hlog0 |- *.
  - destruct (while_not_req_attempts 5 (slice ids 50 (50 + 50)) people cin
                cout 0 m2) as (st1 & H1 & Hlog1); [lia|].
    change (5 - 0)%nat with 5%nat in H1.
    exists st1. eexists. split; [exact H1|].
    rewrite bind_run.
    destruct (while_not_req 5 (slice ids 50 (50 + 50)) people cin cout 0
                None m2) as [[req1|] m3]; cbn [fst snd] in H1, Hlog1 |- *.
    + split.
      * unfold mret, M_ret; cbn [snd]. rewrite Hlog1, Hlog0. subst m1.
        cbn [log]. by rewrite <- !app_assoc.
      * unfold mret, M_ret; cbn [fst].
        destruct req0, req1; simpl; by rewrite ?app_nil_r.
    + split; [|done]. rewrite Hlog1, Hlog0. subst m1.
      cbn [log]. by rewrite <- !app_assoc.
  - split; [done|]. rewrite Hlog0. subst m1.
    cbn [log]. by rewrite <- !app_assoc.
Qed.

(** ** [get_best_offer] as a whole *)

Lemma get_best_offer_run iata people cin cout s :
  get_best_offer iata people cin cout s
  = match retrieve_hotelOffers iata people cin cout s with
    | (Returned hotelOffers, s') =>
        match scan (scan_order hotelOffers) people cin cout
                (bestprice0, None) with
        | Returned best => (Returned (return_bestOffer (snd best)), s')
        | Raised => (Returned (ErrorDict "No Offers Found"), s')
        end
    | (Raised, s') => (Returned (ErrorDict "No Offers Found"), s')
    end.
Proof.
  unfold get_best_offer, try_except. rewrite bind_run.
  destruct (retrieve_hotelOffers iata people cin cout s) as [[hos|] s'];
    [|done].
  rewrite bind_run. unfold lift. rewrite for_hotelOffers_scan.
  by destruct (scan _ _ _ _ _).
Qed.

(** The tool always hands back a value: the bare [except] catches
    everything raised inside. *)
Lemma get_best_offer_returns iata people cin cout s :
  exists r, fst (get_best_offer iata people cin cout s) = Returned r.
Proof.
  rewrite get_best_offer_run.
  destruct (retrieve_hotelOffers iata people cin cout s) as [[hos|] s'];
    [|by eexists].
  destruct (scan _ _ _ _ _); by eexists.
Qed.

(** C1, as amended. When the retrieval completes, every total converts and
    some offer is priced below the initial [bestprice] of 10^12,
    [get_best_offer] returns the record of one visited offer; no visited
    offer is strictly cheaper, its price is at most every price that is not
    nan, and every offer visited before it is strictly dearer (or nan): on
    equal prices the first one seen is kept. *)
Theorem get_best_offer_minimum iata people cin cout s hotelOffers s' :
  retrieve_hotelOffers iata people cin cout s = (Returned hotelOffers, s') ->
  (forall x, x ∈ scan_order hotelOffers -> is_Some (price_of x)) ->
  (exists x f, x ∈ scan_order hotelOffers /\ price_of x = Some f
               /\ lt f bestprice0 = true) ->
  exists k h o best,
    scan_order hotelOffers !! k = Some (h, o)
    /\ py_float (price_total o) = Some best
    /\ get_best_offer iata people cin cout s
       = (Returned (OfferDict (make_bestOffer h o people cin cout)), s')
    /\ (forall x f, x ∈ scan_order hotelOffers -> price_of x = Some f ->
          lt f best = false /\ (is_nan f = false -> le best f = true))
    /\ (forall j x f, (j < k)%nat -> scan_order hotelOffers !! j = Some x ->
          price_of x = Some f -> le f best = false).
Proof.
  intros Hret Hconv (x0 & f0 & Hx0 & Hf0 & Hlow).
  rewrite get_best_offer_run, Hret.
  destruct (scan_returns (scan_order hotelOffers) people cin cout
              (bestprice0, None) Hconv) as [[b' rec'] Hscan].
  rewrite Hscan.
  apply scan_spec in Hscan as [Hmin Hwho].
  destruct Hwho as [[-> _]|(k & h & o & Hk & Hp & -> & Hlt & Hfirst)].
  - specialize (Hmin _ _ Hx0 Hf0). congruence.
  - exists k, h, o, b'. repeat split; try done.
    + by eapply Hmin.
    + intros Hnan. apply not_lt_le; [done| |by eapply Hmin].
      by apply lt_not_nan in Hlt as [? _].
Qed.

(** C10, as amended. When the retrieval completes (the listing and every
    offer query return), then: if every visited offer is priced at 10^12
    or more, nothing is recorded and [get_best_offer] returns [None],
    neither an offer record nor an error object; and a record that is
    returned is never the one of an offer at 10^12 or more, its price is
    strictly below. *)
Theorem get_best_offer_sentinel iata people cin cout s hotelOffers s' :
  retrieve_hotelOffers iata people cin cout s = (Returned hotelOffers, s') ->
  ((forall x, x ∈ scan_order hotelOffers ->
      exists f, price_of x = Some f /\ le bestprice0 f = true) ->
   get_best_offer iata people cin cout s = (Returned PyNone, s'))
  /\ (forall r,
        get_best_offer iata people cin cout s = (Returned (OfferDict r), s') ->
        exists h o f,
          (h, o) ∈ scan_order hotelOffers
          /\ r = make_bestOffer h o people cin cout
          /\ py_float (price_total o) = Some f
          /\ lt f bestprice0 = true
          /\ le bestprice0 f = false).
Proof.
  intros Hret. split.
  - intros Hhigh. rewrite get_best_offer_run, Hret.
    rewrite scan_unchanged; [done|].
    intros x Hx. destruct (Hhigh x Hx) as (f & Hf & Hle).
    exists f. split; [done|]. by apply le_not_lt.
  - intros r. rewrite get_best_offer_run, Hret.
    destruct (scan (scan_order hotelOffers) people cin cout (bestprice0, None))
      as [[b' rec']|] eqn:Hscan; [|done].
    intros [= Hr].
    apply scan_spec in Hscan
      as [_ [[_ ->]|(k & h & o & Hk & Hp & -> & Hlt & _)]]; [done|].
    injection Hr as <-. exists h, o, b'. split_and!; try done.
    + by eapply list_elem_of_lookup_2.
    + by apply lt_not_le.
Qed.

(** X9. No record is ever built from an offer at 10^12 or more: a record
    that is returned comes from a visited offer priced strictly below
    10^12, and repeats the party size and the dates of the search. *)
Lemma get_best_offer_below_sentinel iata people cin cout s r s' :
  get_best_offer iata people cin cout s = (Returned (OfferDict r), s') ->
  exists hotelOffers h o f,
    retrieve_hotelOffers iata people cin cout s = (Returned hotelOffers, s')
    /\ (h, o) ∈ scan_order hotelOffers
    /\ r = make_bestOffer h o people cin cout
    /\ py_float (price_total o) = Some f
    /\ lt f bestprice0 = true.
Proof.
  rewrite get_best_offer_run.
  destruct (retrieve_hotelOffers iata people cin cout s) as [[hos|] s1];
    [|done].
  destruct (scan (scan_order hos) people cin cout (bestprice0, None))
    as [[b' rec']|] eqn:Hscan; [|done].
  intros [= Hr <-].
  apply scan_spec in Hscan as [_ [[_ ->]|(k & h & o & Hk & Hp & -> & Hlt & _)]];
    [done|].
  injection Hr as <-. exists hos, h, o, b'. split_and!; try done.
  by eapply list_elem_of_lookup_2.
Qed.

(** C3, what the code does. When the retrieval completes without a single
    offer (every batch gave up or came back empty), the scan records
    nothing and [get_best_offer] returns [None], not the error object. *)
Theorem get_best_offer_no_offers iata people cin cout s hotelOffers s' :
  retrieve_hotelOffers iata people cin cout s = (Returned hotelOffers, s') ->
  scan_order hotelOffers = [] ->
  get_best_offer iata people cin cout s = (Returned PyNone, s')
  /\ get_best_offer iata people cin cout s
     <> (Returned (ErrorDict "No Offers Found"), s').
Proof.
  intros Hret Hnone. rewrite get_best_offer_run, Hret, Hnone. by simpl.
Qed.

Lemma get_best_offer_machine iata people cin cout s :
  snd (get_best_offer iata people cin cout s)
  = snd (retrieve_hotelOffers iata people cin cout s).
Proof.
  rewrite get_best_offer_run.
  destruct (retrieve_hotelOffers iata people cin cout s) as [[hos|] s'];
    [|done].
  by destruct (scan _ _ _ _ _).
Qed.


(** ** [get_iata_of_city] *)

Lemma fill_outputDict_keeps l d k :
  is_Some (d !! k) -> is_Some (fill_outputDict l d !! k).
Proof.
  revert d. induction l as [|i l IH]; intros d Hk; simpl; [done|].
  apply IH. destruct (decide (city_iataCode i = k)) as [->|Hne].
  - rewrite lookup_insert_eq. by eexists.
  - by rewrite lookup_insert_ne.
Qed.

Lemma fill_outputDict_key l d i :
  i ∈ l -> is_Some (fill_outputDict l d !! city_iataCode i).
Proof.
  revert d. induction l as [|i' l IH]; intros d Hi.
  - by apply elem_of_nil in Hi.
  - simpl. apply elem_of_cons in Hi as [->|Hi]; [|by apply IH].
    apply fill_outputDict_keeps. rewrite lookup_insert_eq. by eexists.
Qed.

Lemma fill_outputDict_entry l d k e :
  fill_outputDict l d !! k = Some e ->
  d !! k = Some e \/ exists i, i ∈ l /\ city_iataCode i = k /\ e = city_entry i.
Proof.
  revert d. induction l as [|i l IH]; intros d Hk; simpl in Hk; [by left|].
  apply IH in Hk as [Hk|(i' & Hi' & Hcode & He)].
  - destruct (decide (city_iataCode i = k)) as [Heq|Hne].
    + subst k. rewrite lookup_insert_eq in Hk. injection Hk as <-.
      right. exists i. split; [by left | done].
    + rewrite lookup_insert_ne in Hk by done. by left.
  - right. exists i'. split; [by right | done].
Qed.

Lemma filter_no_match country cities :
  (forall i, i ∈ cities -> country_matches country i = false) ->
  List.filter (country_matches country) cities = [].
Proof.
  induction cities as [|i cities IH]; intros Hno; simpl; [done|].
  rewrite (Hno i) by by left. apply IH. intros i' Hi'. apply Hno. by right.
Qed.

Lemma country_matches_false country i :
  city_address i !! "countryCode" <> Some (VStr country) ->
  country_matches country i = false.
Proof.
  unfold country_matches, eq_str. intros Hne.
  destruct (city_address i !! "countryCode") as [[| t | |]|]; try done.
  apply bool_decide_eq_false. congruence.
Qed.

(** C6. When the provider returns a non-empty list of which no record has
    the given country code, [get_iata_of_city] returns the dictionary built
    from the whole list: every returned record's code is a key of it (so it
    is not empty) and every entry is the entry of a returned record. *)
Theorem get_iata_of_city_fallback city country s cities w :
  cities_get city (world s) = (Returned cities, w) ->
  cities <> [] ->
  (forall i, i ∈ cities ->
     city_address i !! "countryCode" <> Some (VStr country)) ->
  let outputDict := fill_outputDict cities ∅ in
  get_iata_of_city city country s
  = (Returned (IataDict outputDict),
     {| world := w; log := log s ++ [CitiesGet city] |})
  /\ outputDict <> ∅
  /\ (forall i, i ∈ cities -> is_Some (outputDict !! city_iataCode i))
  /\ (forall k e, outputDict !! k = Some e ->
        exists i, i ∈ cities /\ city_iataCode i = k /\ e = city_entry i).
Proof.
  intros Hget Hne Hno outputDict. subst outputDict. split_and!.
  - unfold get_iata_of_city, try_except. rewrite bind_run.
    rewrite (external_run _ _ _ _ _ Hget).
    rewrite filter_no_match; [done|].
    intros i Hi. by apply country_matches_false, Hno.
  - destruct cities as [|i cities]; [done|]. intros Hempty.
    destruct (fill_outputDict_key (i :: cities) ∅ i) as [e He]; [by left|].
    rewrite Hempty in He. by rewrite lookup_empty in He.
  - intros i Hi. by apply fill_outputDict_key.
  - intros k e Hk. apply fill_outputDict_entry in Hk as [Hk|?]; [|done].
    by rewrite lookup_empty in Hk.
Qed.

(** C7, what the code does. When the provider returns an empty list, the
    final list is empty and [get_iata_of_city] returns the empty dictionary,
    not the error object. *)
Theorem get_iata_of_city_empty city country s w :
  cities_get city (world s) = (Returned [], w) ->
  get_iata_of_city city country s
  = (Returned (IataDict ∅),
     {| world := w; log := log s ++ [CitiesGet city] |}).
Proof.
  intros Hget. unfold get_iata_of_city, try_except. rewrite bind_run.
  by rewrite (external_run _ _ _ _ _ Hget).
Qed.

(** The half of C7 the code has: a provider call that raises gives the
    error object. *)
Lemma get_iata_of_city_provider_fault city country s w :
  cities_get city (world s) = (Raised, w) ->
  get_iata_of_city city country s
  = (Returned (ErrorDict "The city not found (no IATA code)."),
     {| world := w; log := log s ++ [CitiesGet city] |}).
Proof.
  intros Hget. unfold get_iata_of_city, try_except. rewrite bind_run.
  by rewrite (external_run _ _ _ _ _ Hget).
Qed.

(** ** [get_price_in_wanted_currency] *)

(** C2, what the code does. A rate-provider call that raises is not caught:
    the exception leaves the tool. *)
Theorem get_price_in_wanted_currency_fault wanted current price s w :
  rates_get current (world s) = (Raised, w) ->
  get_price_in_wanted_currency wanted current price s
  = (Raised, {| world := w; log := log s ++ [RatesGet current] |}).
Proof.
  intros Hget. unfold get_price_in_wanted_currency. rewrite bind_run.
  by rewrite (external_run _ _ _ _ _ Hget).
Qed.

(** X12. Nor is the subscript of a reply without ['conversion_rates']: a
    non-empty reply that lacks the table makes the tool raise. *)
Lemma get_price_in_wanted_currency_no_table wanted current price s w :
  rates_get current (world s) = (Returned (DataObject None), w) ->
  fst (get_price_in_wanted_currency wanted current price s) = Raised.
Proof.
  intros Hget. unfold get_price_in_wanted_currency. rewrite bind_run.
  by rewrite (external_run _ _ _ _ _ Hget).
Qed.

(** X11. The two cases the code does answer with the error object: a
    falsy reply, and a table without the wanted currency. *)
Lemma get_price_in_wanted_currency_error wanted current price s data w :
  rates_get current (world s) = (Returned data, w) ->
  data = DataFalsy
  \/ (exists table, data = DataObject (Some table)
                    /\ table !! wanted = None) ->
  fst (get_price_in_wanted_currency wanted current price s)
  = Returned (ErrorDict "Could Not Estimate Price").
Proof.
  intros Hget Hcase. unfold get_price_in_wanted_currency. rewrite bind_run.
  rewrite (external_run _ _ _ _ _ Hget).
  destruct Hcase as [->|(table & -> & Hnone)]; [done|]. by rewrite Hnone.
Qed.

(** ** The tools leave the dispatch log alone *)

Lemma quiet_ret {A : Type} (a : A) : quiet (mret a).
Proof. by intros s. Qed.

Lemma quiet_raise {A : Type} : quiet (@raise A).
Proof. by intros s. Qed.

Lemma quiet_lift {A : Type} (r : outcome A) : quiet (lift r).
Proof. by intros s. Qed.

Lemma quiet_bind {A B : Type} (m : M A) (f : A -> M B) :
  quiet m -> (forall a, quiet (f a)) -> quiet (m ≫= f).
Proof.
  intros Hm Hf s. rewrite bind_run. specialize (Hm s).
  destruct (m s) as [[a|] s']; simpl in Hm |- *; [|done].
  by rewrite Hf.
Qed.

Lemma quiet_try_except {A : Type} (body handler : M A) :
  quiet body -> quiet handler -> quiet (try_except body handler).
Proof.
  intros Hb Hh s. unfold try_except. specialize (Hb s).
  destruct (body s) as [[a|] s']; simpl in Hb |- *; [done|].
  by rewrite Hh.
Qed.

Lemma quiet_external {A : Type} (f : World -> outcome A * World) ev :
  (forall r, tool_events [ev r] = []) -> quiet (external f ev).
Proof.
  intros Hev s. unfold external. destruct (f (world s)) as [r w]. simpl.
  unfold tool_events in *. by rewrite omap_app, Hev, app_nil_r.
Qed.

Lemma quiet_while_not_req fuel hotelIds people cin cout j req :
  quiet (while_not_req fuel hotelIds people cin cout j req).
Proof.
  revert j req. induction fuel as [|fuel IH]; intros j req; simpl.
  - destruct (negb (truthy req) && (j <? 5)%nat); apply quiet_ret.
  - destruct (negb (truthy req) && (j <? 5)%nat); [|apply quiet_ret].
    apply quiet_bind; [by apply quiet_external | intros a; apply IH].
Qed.

Lemma quiet_for_batches batches ids people cin cout hotelOffers :
  quiet (for_batches batches ids people cin cout hotelOffers).
Proof.
  revert hotelOffers. induction batches as [|i batches IH];
    intros hotelOffers; cbn [for_batches]; [apply quiet_ret|].
  apply quiet_bind; [apply quiet_while_not_req | intros a; apply IH].
Qed.

Lemma quiet_get_best_offer iata people cin cout :
  quiet (get_best_offer iata people cin cout).
Proof.
  apply quiet_try_except; [|apply quiet_ret].
  apply quiet_bind.
  - apply quiet_bind; [by apply quiet_external|].
    intros hotels. apply quiet_for_batches.
  - intros hos. apply quiet_bind; [apply quiet_lift | intros; apply quiet_ret].
Qed.

Lemma quiet_get_iata_of_city city country :
  quiet (get_iata_of_city city country).
Proof.
  apply quiet_try_except; [|apply quiet_ret].
  apply quiet_bind; [by apply quiet_external | intros; apply quiet_ret].
Qed.

Lemma quiet_get_price_in_wanted_currency wanted current price :
  quiet (get_price_in_wanted_currency wanted current price).
Proof.
  apply quiet_bind; [by apply quiet_external|].
  intros [|[table|]]; [apply quiet_ret| |apply quiet_raise].
  destruct (table !! wanted); [|apply quiet_ret].
  apply quiet_bind; [apply quiet_lift | intros; apply quiet_ret].
Qed.

Lemma tools_by_name_lookup n t :
  tools_by_name !! n = Some t ->
  t = get_iata_of_city_tool \/ t = get_best_offer_tool
  \/ t = get_price_in_wanted_currency_tool \/ t = about_you_tool.
Proof.
  unfold tools_by_name, tools. simpl. intros H.
  repeat (rewrite lookup_insert in H; case_decide;
          [inversion H; tauto|]).
  by rewrite lookup_empty in H.
Qed.

Lemma quiet_invoke n t args :
  tools_by_name !! n = Some t -> quiet (invoke t args).
Proof.
  intros H. apply tools_by_name_lookup in H as [-> | [-> | [-> | ->]]];
    destruct args; cbn [invoke get_iata_of_city_tool get_best_offer_tool
                          get_price_in_wanted_currency_tool about_you_tool];
    first [ apply quiet_raise | apply quiet_get_iata_of_city
          | apply quiet_get_best_offer
          | apply quiet_get_price_in_wanted_currency
          | apply quiet_ret ].
Qed.

(** ** The acting phase *)

Lemma for_tool_calls_spec tcs results s :
  match for_tool_calls tcs results s with
  | (Returned out, s') =>
      exists responses,
        length responses = length tcs
        /\ out = results ++ zip_with tool_message tcs responses
        /\ tool_events (log s') = tool_events (log s) ++ tcs
  | (Raised, _) => True
  end.
Proof.
  revert results s. induction tcs as [|tc tcs IH]; intros results s.
  - simpl. exists []. by rewrite !app_nil_r.
  - cbn [for_tool_calls].
    destruct (tools_by_name !! tc_name tc) as [t|] eqn:Ht; [|done].
    rewrite bind_run. cbn [tell]. rewrite bind_run.
    pose proof (quiet_invoke _ _ (tc_args tc) Ht
                  {| world := world s; log := log s ++ [ToolInvoke tc] |})
      as Hquiet.
    destruct (invoke t (tc_args tc) _) as [[r|] s2]; [|done].
    cbn [snd log] in Hquiet.
    specialize (IH (results ++ [ToolMessage r (tc_name tc) (tc_id tc)]) s2).
    destruct (for_tool_calls tcs _ s2) as [[out|] s3]; [|done].
    destruct IH as (responses & Hlen & -> & Hlog).
    exists (r :: responses). split_and!.
    + simpl. by rewrite Hlen.
    + by rewrite <- app_assoc.
    + rewrite Hlog, Hquiet. unfold tool_events. rewrite omap_app.
      by rewrite <- app_assoc.
Qed.




Lemma get_iata_of_city_returns city country s :
  exists r, fst (get_iata_of_city city country s) = Returned r.
Proof.
  unfold get_iata_of_city, try_except. rewrite bind_run. unfold external.
  destruct (cities_get city (world s)) as [[cities|] w]; by eexists.
Qed.



Lemma tools_by_name_about_you :
  tools_by_name !! "about_you" = Some about_you_tool.
Proof. reflexivity. Qed.








(** ** The graph *)

Lemma calling_model_run state s c tcs w :
  model_invoke (messages state) (world s) = (Returned (c, tcs), w) ->
  calling_model state s
  = (Returned [AIMessage c tcs],
     {| world := w; log := log s ++ [ModelInvoke (messages state)] |}).
Proof.
  intros Hmodel. unfold calling_model. rewrite bind_run.
  by rewrite (external_run _ _ _ _ _ Hmodel).
Qed.

Lemma continue_or_end_last history c tcs n :
  continue_or_end
    {| messages := history ++ [AIMessage c tcs]; number_of_steps := n |}
  = Returned (match tcs with [] => "end" | _ :: _ => "continue" end).
Proof.
  unfold continue_or_end, last_tool_calls. cbn [messages].
  rewrite last_snoc. by destruct tcs.
Qed.

Lemma conditional_edges_end : conditional_edges "end" = Some END.
Proof. reflexivity. Qed.

Lemma conditional_edges_continue :
  conditional_edges "continue" = Some tool_set.
Proof. reflexivity. Qed.

Lemma run_graph_END fuel state s :
  run_graph fuel END state s = (Returned (Some state), s).
Proof. by destruct fuel. Qed.

(** One reasoning phase: the reply is appended, and the graph goes to
    [END] or to [tool_set] according to its tool calls. *)
Lemma run_graph_thought_llm fuel state s c tcs w :
  model_invoke (messages state) (world s) = (Returned (c, tcs), w) ->
  run_graph (S fuel) thought_llm state s
  = run_graph fuel (match tcs with [] => END | _ :: _ => tool_set end)
      (add_messages state [AIMessage c tcs])
      {| world := w; log := log s ++ [ModelInvoke (messages state)] |}.
Proof.
  intros Hmodel. cbn [run_graph]. rewrite bind_run.
  rewrite (calling_model_run _ _ _ _ _ Hmodel).
  rewrite bind_run. unfold lift, add_messages at 1.
  rewrite continue_or_end_last. by destruct tcs.
Qed.

(** C9. When the first reply of the model carries no tool call, the run
    ends, whatever fuel it is given beyond the one node it executes, after
    that single reasoning phase: the model has been invoked once, no tool
    has been dispatched, the final state is the input extended by the
    reply, and the content of the reply is the content of its last
    message, the answer [predict] returns. *)
Theorem graph_first_reply_without_tool_calls fuel inputs s c w :
  model_invoke (messages inputs) (world s) = (Returned (c, []), w) ->
  exists s',
    graph (S fuel) inputs s
    = (Returned (Some (add_messages inputs [AIMessage c []])), s')
    /\ world s' = w
    /\ log s' = log s ++ [ModelInvoke (messages inputs)]
    /\ model_events (log s')
       = model_events (log s) ++ [messages inputs]
    /\ tool_events (log s') = tool_events (log s)
    /\ message_content
         <$> last (messages (add_messages inputs [AIMessage c []]))
       = Some (Text c).
Proof.
  intros Hmodel. eexists. unfold graph.
  rewrite (run_graph_thought_llm _ _ _ _ _ _ Hmodel), run_graph_END.
  split; [reflexivity|]. cbn [world log]. split_and!; try done.
  - unfold model_events. by rewrite omap_app.
  - unfold tool_events. by rewrite omap_app, app_nil_r.
  - unfold add_messages. cbn [messages]. by rewrite last_snoc.
Qed.

(** The same through [predict]. *)
Lemma predict_first_reply_without_tool_calls fuel message history s c w :
  let chat_messages :=
    [SystemMessage system_prompt] ++ map chat_message history
      ++ [HumanMessage message] in
  model_invoke chat_messages (world s) = (Returned (c, []), w) ->
  predict (S fuel) message history s
  = (Returned (Some (Text c)),
     {| world := w; log := log s ++ [ModelInvoke chat_messages] |}).
Proof.
  intros chat_messages Hmodel. unfold predict. rewrite bind_run.
  fold chat_messages. unfold graph.
  rewrite (run_graph_thought_llm fuel
             {| messages := chat_messages; number_of_steps := None |}
             s c [] w Hmodel).
  rewrite run_graph_END. unfold add_messages. cbn [messages]. by rewrite last_snoc.
Qed.

(** A run that ends does so on a reply of the model without tool calls:
    [END] is entered from [thought_llm] only. *)
Lemma run_graph_final fuel at_node state s final s' :
  at_node <> END ->
  run_graph fuel at_node state s = (Returned (Some final), s') ->
  exists c, last (messages final) = Some (AIMessage c []).
Proof.
  revert at_node state s. induction fuel as [|fuel IH];
    intros at_node state s Hnode Hrun.
  - by destruct at_node.
  - destruct at_node; [| |done]; cbn [run_graph] in Hrun;
      rewrite bind_run in Hrun.
    + unfold calling_model in Hrun. rewrite bind_run in Hrun.
      unfold external in Hrun.
      destruct (model_invoke (messages state) (world s)) as [[[c tcs]|] w];
        [|done].
      cbn [mret M_ret fst snd] in Hrun. rewrite bind_run in Hrun.
      unfold lift, add_messages at 1 in Hrun.
      rewrite continue_or_end_last in Hrun.
      destruct tcs as [|tc tcs].
      * rewrite conditional_edges_end, run_graph_END in Hrun. injection Hrun as <- _. exists c.
        cbn [add_messages messages]. by rewrite last_snoc.
      * rewrite conditional_edges_continue in Hrun.
        eapply (IH tool_set); [done|exact Hrun].
    + destruct (calling_tools state s) as [[upd|] s1]; [|done].
      eapply (IH thought_llm); [done|exact Hrun].
Qed.

(** The reply a run ends on is the one the model gave on its last
    invocation, and that invocation is the last call of the run. *)
Lemma run_graph_final_reply fuel at_node state s final s' :
  at_node <> END ->
  run_graph fuel at_node state s = (Returned (Some final), s') ->
  exists c h w,
    messages final = h ++ [AIMessage c []]
    /\ model_invoke h w = (Returned (c, []), world s')
    /\ last (log s') = Some (ModelInvoke h).
Proof.
  revert at_node state s. induction fuel as [|fuel IH];
    intros at_node state s Hnode Hrun.
  - by destruct at_node.
  - destruct at_node; [| |done]; cbn [run_graph] in Hrun;
      rewrite bind_run in Hrun.
    + unfold calling_model in Hrun. rewrite bind_run in Hrun.
      unfold external in Hrun.
      destruct (model_invoke (messages state) (world s))
        as [[[c tcs]|] w] eqn:Hmodel; [|done].
      cbn [mret M_ret fst snd] in Hrun. rewrite bind_run in Hrun.
      unfold lift, add_messages at 1 in Hrun.
      rewrite continue_or_end_last in Hrun.
      destruct tcs as [|tc tcs].
      * rewrite conditional_edges_end, run_graph_END in Hrun.
        injection Hrun as <- <-. exists c, (messages state), (world s).
        cbn [add_messages messages world log]. split_and!; [done|done|].
        by rewrite last_snoc.
      * rewrite conditional_edges_continue in Hrun.
        eapply (IH tool_set); [done|exact Hrun].
    + destruct (calling_tools state s) as [[upd|] s1]; [|done].
      eapply (IH thought_llm); [done|exact Hrun].
Qed.

(** X16. So the answer of [predict] is the content of the reply the model
    gave on its last invocation, a reply without tool calls, and nothing
    is called after that invocation: the answer is never the output of a
    tool, nor a message of the input. *)
Lemma predict_answer_is_text fuel message history s answer s' :
  predict fuel message history s = (Returned (Some answer), s') ->
  exists c h w,
    answer = Text c
    /\ model_invoke h w = (Returned (c, []), world s')
    /\ last (log s') = Some (ModelInvoke h).
Proof.
  unfold predict. rewrite bind_run. unfold graph.
  destruct (run_graph fuel thought_llm _ s) as [[[final|]|] s1] eqn:Hrun;
    try done.
  apply run_graph_final_reply in Hrun as (c & h & w & Hm & Hmodel & Hlast);
    [|done].
  rewrite Hm, last_snoc. intros [= <- <-]. by exists c, h, w.
Qed.

Lemma calling_tools_about_you history c tc n s :
  tc_name tc = "about_you" -> tc_args tc = NoFields ->
  calling_tools
    {| messages := history ++ [AIMessage c [tc]]; number_of_steps := n |} s
  = (Returned [ToolMessage about_you_response "about_you" (tc_id tc)],
     {| world := world s; log := log s ++ [ToolInvoke tc] |}).
Proof.
  intros Hname Hargs. unfold calling_tools, last_tool_calls. cbn [messages].
  rewrite last_snoc, bind_run. unfold lift. cbn [for_tool_calls].
  rewrite Hname, tools_by_name_about_you, Hargs. by rewrite <- Hname.
Qed.

(** C4, what the code does. [about_you] is declared with
    [return_direct=True], but the graph never reads the flag: after the
    tool has been dispatched its result is appended to the history and the
    run goes on at [thought_llm], on that history. The run does not end on
    the state that holds the tool result. *)
Theorem about_you_result_fed_back fuel inputs s c tc w :
  model_invoke (messages inputs) (world s) = (Returned (c, [tc]), w) ->
  tc_name tc = "about_you" -> tc_args tc = NoFields ->
  let result := ToolMessage about_you_response "about_you" (tc_id tc) in
  let state' :=
    add_messages (add_messages inputs [AIMessage c [tc]]) [result] in
  let s' :=
    {| world := w;
       log := log s ++ [ModelInvoke (messages inputs); ToolInvoke tc] |} in
  return_direct about_you_tool = true
  /\ graph (S (S fuel)) inputs s = run_graph fuel thought_llm state' s'
  /\ graph (S (S fuel)) inputs s <> (Returned (Some state'), s').
Proof.
  intros Hmodel Hname Hargs result state' s'.
  assert (Hstep : graph (S (S fuel)) inputs s
                  = run_graph fuel thought_llm state' s').
  { unfold graph. rewrite (run_graph_thought_llm _ _ _ _ _ _ Hmodel).
    cbn [run_graph]. rewrite bind_run. unfold add_messages at 1.
    rewrite (calling_tools_about_you _ _ _ _ _ Hname Hargs).
    cbn [world log]. subst state' s' result. unfold add_messages.
    cbn [messages number_of_steps]. by rewrite <- !app_assoc. }
  split_and!; [done|done|].
  rewrite Hstep. intros Hend.
  apply run_graph_final in Hend as [c' Hlast]; [|done].
  subst state' result. unfold add_messages in Hlast. cbn [messages] in Hlast.
  by rewrite last_snoc in Hlast.
Qed.

(** * Further properties of the tools and of the graph *)

(** ** [get_iata_of_city] *)

Lemma country_matches_true country i :
  country_matches country i = true
  <-> city_address i !! "countryCode" = Some (VStr country).
Proof.
  unfold country_matches, eq_str.
  destruct (city_address i !! "countryCode") as [[| t | |]|];
    try (split; [discriminate | congruence]).
  rewrite bool_decide_eq_true. split; congruence.
Qed.

Lemma fill_outputDict_other l d k :
  (forall j, j ∈ l -> city_iataCode j <> k) ->
  fill_outputDict l d !! k = d !! k.
Proof.
  revert d. induction l as [|i l IH]; intros d Hno; simpl; [done|].
  rewrite IH by (intros j Hj; apply Hno; by right).
  apply lookup_insert_ne, Hno. by left.
Qed.

(** X1. When some returned record has the given country code, the result
    is built from the records that have it and from no other: each of them
    has its code among the keys, and every entry is the entry of one of
    them. *)
Theorem get_iata_of_city_filtered city country s cities w :
  cities_get city (world s) = (Returned cities, w) ->
  (exists i, i ∈ cities
             /\ city_address i !! "countryCode" = Some (VStr country)) ->
  let kept := List.filter (country_matches country) cities in
  get_iata_of_city city country s
  = (Returned (IataDict (fill_outputDict kept ∅)),
     {| world := w; log := log s ++ [CitiesGet city] |})
  /\ (forall i, i ∈ cities ->
        city_address i !! "countryCode" = Some (VStr country) ->
        is_Some (fill_outputDict kept ∅ !! city_iataCode i))
  /\ (forall k e, fill_outputDict kept ∅ !! k = Some e ->
        exists i, i ∈ cities
                  /\ city_address i !! "countryCode" = Some (VStr country)
                  /\ city_iataCode i = k /\ e = city_entry i).
Proof.
  intros Hget (i0 & Hi0 & Hm0) kept.
  assert (Hkept : forall i, i ∈ kept
            <-> i ∈ cities
                /\ city_address i !! "countryCode" = Some (VStr country)).
  { intros i. subst kept.
    rewrite !list_elem_of_In, filter_In. by rewrite country_matches_true. }
  split_and!.
  - unfold get_iata_of_city, try_except. rewrite bind_run.
    rewrite (external_run _ _ _ _ _ Hget). fold kept.
    destruct kept as [|i kept'] eqn:Hk; [|done].
    exfalso. eapply not_elem_of_nil. apply Hkept. eauto.
  - intros i Hi Hm. apply fill_outputDict_key. apply Hkept. eauto.
  - intros k e Hk. apply fill_outputDict_entry in Hk as [Hk|(i & Hi & ? & ?)].
    + by rewrite lookup_empty in Hk.
    + apply Hkept in Hi as [? ?]. eauto.
Qed.

(** X2. Of several records with the same code, the last one fills the
    entry: the entry of a code is reset each time the code comes up. *)
Theorem fill_outputDict_last_wins l1 i l2 d :
  (forall j, j ∈ l2 -> city_iataCode j <> city_iataCode i) ->
  fill_outputDict (l1 ++ i :: l2) d !! city_iataCode i = Some (city_entry i).
Proof.
  intros Hlast. unfold fill_outputDict. rewrite foldl_app. simpl.
  fold (fill_outputDict l1 d).
  fold (fill_outputDict l2
          (<[city_iataCode i := city_entry i]> (fill_outputDict l1 d))).
  rewrite fill_outputDict_other by done. apply lookup_insert_eq.
Qed.

(** X3. [get_iata_of_city] never raises and calls the provider once: it
    returns a dictionary of codes, or the error object, and the error
    object whenever the provider call raised. *)
Theorem get_iata_of_city_outcome city country s :
  exists r,
    get_iata_of_city city country s
    = (Returned r,
       {| world := snd (cities_get city (world s));
          log := log s ++ [CitiesGet city] |})
    /\ ((exists d, r = IataDict d)
        \/ r = ErrorDict "The city not found (no IATA code).")
    /\ (fst (cities_get city (world s)) = Raised ->
        r = ErrorDict "The city not found (no IATA code).").
Proof.
  unfold get_iata_of_city, try_except. rewrite bind_run. unfold external.
  destruct (cities_get city (world s)) as [[cities|] w]; simpl.
  - eexists. split; [reflexivity|]. split; [left; by eexists|].
    discriminate.
  - eexists. split; [reflexivity|]. split; [by right|]. done.
Qed.

(** ** [get_best_offer] *)

Lemma retrieve_hotelOffers_listing_fault iata people cin cout s w :
  hotels_by_city iata (world s) = (Raised, w) ->
  retrieve_hotelOffers iata people cin cout s
  = (Raised, {| world := w; log := log s ++ [HotelsByCity iata] |}).
Proof.
  intros Hlist. unfold retrieve_hotelOffers. rewrite bind_run.
  by rewrite (external_run _ _ _ _ _ Hlist).
Qed.

Lemma Forall_map_intro {A B : Type} (P : B -> Prop) (f : A -> B) l :
  (forall x, P (f x)) -> Forall P (map f l).
Proof. intros HP. induction l; simpl; by constructor. Qed.

(** X4. [get_best_offer] never raises: it returns an offer record, [None],
    or the error object. *)
Theorem get_best_offer_outcome iata people cin cout s :
  exists r s',
    get_best_offer iata people cin cout s = (Returned r, s')
    /\ ((exists o, r = OfferDict o) \/ r = PyNone
        \/ r = ErrorDict "No Offers Found").
Proof.
  rewrite get_best_offer_run.
  destruct (retrieve_hotelOffers iata people cin cout s) as [[hos|] s'].
  - destruct (scan _ _ _ _ _) as [[b [o|]]|]; do 2 eexists;
      (split; [reflexivity|]); eauto.
  - do 2 eexists. split; [reflexivity|]. eauto.
Qed.

(** X5. Whatever the providers answer, a search makes one listing call and
    then at most 10 offer queries, all for the party size and the dates of
    the search, and no other call. *)
Theorem get_best_offer_call_bound iata people cin cout s :
  exists queries : list event,
    log (snd (get_best_offer iata people cin cout s))
    = log s ++ HotelsByCity iata :: queries
    /\ (length queries <= 10)%nat
    /\ Forall (fun e => exists ids st,
                 e = OffersSearch ids people cin cout st) queries.
Proof.
  rewrite get_best_offer_machine.
  destruct (hotels_by_city iata (world s)) as [[hotels|] w] eqn:Hlist.
  - destruct (retrieve_hotelOffers_spec iata people cin cout s hotels w Hlist)
      as (s0 & r0 & H0 & Hrest).
    pose proof (attempts_length _ _ _ H0) as Hlen0.
    destruct r0 as [req0|].
    + destruct Hrest as (s1 & r1 & H1 & Hlog & _).
      pose proof (attempts_length _ _ _ H1) as Hlen1.
      eexists. split; [exact Hlog|]. split.
      * rewrite length_app, !length_map. lia.
      * apply Forall_app. split; apply Forall_map_intro; eauto.
    + destruct Hrest as [_ Hlog].
      eexists. split; [exact Hlog|]. split.
      * rewrite length_map. lia.
      * apply Forall_map_intro; eauto.
  - rewrite (retrieve_hotelOffers_listing_fault _ _ _ _ _ _ Hlist).
    exists []. split_and!; [done|simpl; lia|constructor].
Qed.

(** X6. When the listing call raises, the result is the error object and
    the offer provider is not queried. *)
Theorem get_best_offer_listing_fault iata people cin cout s w :
  hotels_by_city iata (world s) = (Raised, w) ->
  get_best_offer iata people cin cout s
  = (Returned (ErrorDict "No Offers Found"),
     {| world := w; log := log s ++ [HotelsByCity iata] |}).
Proof.
  intros Hlist. rewrite get_best_offer_run.
  by rewrite (retrieve_hotelOffers_listing_fault _ _ _ _ _ _ Hlist).
Qed.

Lemma while_not_req_first_result fuel hotelIds people cin cout s data w :
  offers_search hotelIds people cin cout (world s) = (Returned (Some data), w) ->
  while_not_req (S fuel) hotelIds people cin cout 0 None s
  = (Returned (Some data),
     {| world := w;
        log := log s ++ [OffersSearch hotelIds people cin cout GotResult] |}).
Proof.
  intros Hcall. simpl. rewrite bind_run.
  rewrite (external_run _ _ _ _ _ Hcall). by destruct fuel.
Qed.

Lemma while_not_req_first_fault fuel hotelIds people cin cout s w :
  offers_search hotelIds people cin cout (world s) = (Raised, w) ->
  while_not_req (S fuel) hotelIds people cin cout 0 None s
  = (Raised,
     {| world := w;
        log := log s ++ [OffersSearch hotelIds people cin cout Faulted] |}).
Proof.
  intros Hcall. simpl. rewrite bind_run.
  by rewrite (external_run _ _ _ _ _ Hcall).
Qed.

(** X7. A query that raises loses what an earlier batch had brought: when
    the first batch is answered at once and the query of the second batch
    raises, the result is the error object. *)
Theorem get_best_offer_later_fault iata people cin cout s hotels w data w1 w2 :
  hotels_by_city iata (world s) = (Returned hotels, w) ->
  offers_search (slice (map hotelId hotels) 0 50) people cin cout w
  = (Returned (Some data), w1) ->
  offers_search (slice (map hotelId hotels) 50 100) people cin cout w1
  = (Raised, w2) ->
  get_best_offer iata people cin cout s
  = (Returned (ErrorDict "No Offers Found"),
     {| world := w2;
        log := log s
               ++ [HotelsByCity iata;
                   OffersSearch (slice (map hotelId hotels) 0 50) people
                     cin cout GotResult;
                   OffersSearch (slice (map hotelId hotels) 50 100) people
                     cin cout Faulted] |}).
Proof.
  intros Hlist H0 H1. rewrite get_best_offer_run.
  unfold retrieve_hotelOffers. rewrite range_0_99_50, bind_run.
  rewrite (external_run _ _ _ _ _ Hlist). cbn [for_batches].
  rewrite bind_run.
  change (0 + 50)%nat with 50%nat. change (50 + 50)%nat with 100%nat.
  rewrite (while_not_req_first_result 4 _ people cin cout
             {| world := w; log := log s ++ [HotelsByCity iata] |} data w1)
    by exact H0.
  rewrite bind_run.
  rewrite (while_not_req_first_fault 4 _ people cin cout
             {| world := w1;
                log := (log s ++ [HotelsByCity iata])
                       ++ [OffersSearch (slice (map hotelId hotels) 0 50)
                             people cin cout GotResult] |} w2)
    by exact H1.
  cbn [log]. by rewrite <- !app_assoc.
Qed.

Lemma scan_raises l people cin cout best x :
  x ∈ l -> price_of x = None -> scan l people cin cout best = Raised.
Proof.
  revert best. induction l as [|[h o] l IH]; intros best Hx Hnone.
  - by apply elem_of_nil in Hx.
  - simpl. destruct (py_float (price_total o)) as [c|] eqn:Hc; [|done].
    apply elem_of_cons in Hx as [->|Hx]; [|by apply IH].
    unfold price_of in Hnone. simpl in Hnone. congruence.
Qed.

(** X8. One total that [float] rejects makes the whole search fail: the
    result is the error object, whatever the other offers are. *)
Theorem get_best_offer_bad_total iata people cin cout s hotelOffers s' :
  retrieve_hotelOffers iata people cin cout s = (Returned hotelOffers, s') ->
  (exists x, x ∈ scan_order hotelOffers /\ price_of x = None) ->
  get_best_offer iata people cin cout s
  = (Returned (ErrorDict "No Offers Found"), s').
Proof.
  intros Hret (x & Hx & Hnone). rewrite get_best_offer_run, Hret.
  by rewrite (scan_raises _ _ _ _ _ x Hx Hnone).
Qed.

(** X10. For a city with at most 50 hotels the first batch holds every
    identifier and the second none, and the second batch is queried all the
    same, with an empty list of identifiers. *)
Theorem get_best_offer_small_listing iata people cin cout s hotels w :
  hotels_by_city iata (world s) = (Returned hotels, w) ->
  (length hotels <= 50)%nat ->
  exists s0 s1 : list status,
    log (snd (get_best_offer iata people cin cout s))
    = log s ++ HotelsByCity iata
        :: map (OffersSearch (map hotelId hotels) people cin cout) s0
        ++ map (OffersSearch [] people cin cout) s1
    /\ (1 <= length s0)%nat
    /\ (Faulted ∉ s0 -> (1 <= length s1)%nat).
Proof.
  intros Hlist Hsmall. rewrite get_best_offer_machine.
  destruct (retrieve_hotelOffers_spec iata people cin cout s hotels w Hlist)
    as (s0 & r0 & H0 & Hrest).
  assert (Hb0 : slice (map hotelId hotels) 0 (0 + 50) = map hotelId hotels).
  { unfold slice. rewrite drop_0. apply take_ge. rewrite length_map. lia. }
  assert (Hb1 : slice (map hotelId hotels) 50 (50 + 50) = []).
  { unfold slice. rewrite drop_ge by (rewrite length_map; lia).
    by rewrite take_nil. }
  rewrite Hb0, Hb1 in Hrest.
  pose proof (attempts_queried _ _ _ H0) as Hq0.
  pose proof (attempts_fault_iff _ _ _ H0) as Hf0.
  destruct r0 as [req0|].
  - destruct Hrest as (s1 & r1 & H1 & Hlog & _).
    exists s0, s1. split_and!; [done|done|].
    intros _. by apply (attempts_queried _ _ _ H1).
  - destruct Hrest as [_ Hlog].
    exists s0, []. simpl. rewrite app_nil_r. split_and!; [done|done|].
    intros Hnf. exfalso. apply Hnf. by apply Hf0.
Qed.

(** ** The registry and the acting phase *)

(** X13. The registry maps each of the four names to the tool declared
    under it, and holds nothing under any other name: no tool hides
    another. *)
Theorem tools_by_name_names n t :
  tools_by_name !! n = Some t <-> t ∈ tools /\ tool_name t = n.
Proof.
  split.
  - unfold tools_by_name, tools. simpl. intros H.
    repeat (rewrite lookup_insert in H; case_decide;
            [inversion H; subst; split; [set_solver | done]|]).
    by rewrite lookup_empty in H.
  - intros [Ht <-]. unfold tools in Ht.
    repeat (apply elem_of_cons in Ht as [->|Ht]; [reflexivity|]).
    by apply elem_of_nil in Ht.
Qed.

Lemma for_tool_calls_prefix pre rest results s :
  Forall catching_request pre ->
  exists results' s1,
    for_tool_calls (pre ++ rest) results s = for_tool_calls rest results' s1
    /\ tool_events (log s1) = tool_events (log s) ++ pre.
Proof.
  intros Hall. revert results s.
  induction Hall as [|tc pre Htc _ IH]; intros results s.
  - exists results, s. by rewrite app_nil_r.
  - cbn [app for_tool_calls].
    assert (Hstep : exists t,
              tools_by_name !! tc_name tc = Some t
              /\ exists r, fst (invoke t (tc_args tc)
                                  {| world := world s;
                                     log := log s ++ [ToolInvoke tc] |})
                           = Returned r).
    { destruct Htc as [[Hn (city & country & Ha)]
                      |[[Hn (iata & people & cin & cout & Ha)]|[Hn Ha]]];
        rewrite Hn, Ha.
      - exists get_iata_of_city_tool. split; [reflexivity|].
        apply get_iata_of_city_returns.
      - exists get_best_offer_tool. split; [reflexivity|].
        apply get_best_offer_returns.
      - exists about_you_tool. split; [reflexivity|]. by eexists. }
    destruct Hstep as (t & Ht & r & Hr). rewrite Ht, bind_run. cbn [tell].
    rewrite bind_run.
    pose proof (quiet_invoke _ _ (tc_args tc) Ht
                  {| world := world s; log := log s ++ [ToolInvoke tc] |})
      as Hquiet.
    destruct (invoke t (tc_args tc) _) as [o s2]. simpl in Hr. subst o.
    cbn [snd log] in Hquiet.
    destruct (IH (results ++ [ToolMessage r (tc_name tc) (tc_id tc)]) s2)
      as (results' & s3 & Hrun & Hlog).
    exists results', s3. split; [done|].
    rewrite Hlog, Hquiet. unfold tool_events. rewrite omap_app.
    by rewrite <- app_assoc.
Qed.

(** X14. A request for a name that is not registered raises in the middle
    of the acting phase: the requests before it have been dispatched, the
    requests after it are not, and no result is handed back, not even for
    the ones dispatched. *)
Theorem calling_tools_unregistered history c pre tc post n s :
  Forall catching_request pre ->
  tools_by_name !! tc_name tc = None ->
  let state :=
    {| messages := history ++ [AIMessage c (pre ++ tc :: post)];
       number_of_steps := n |} in
  fst (calling_tools state s) = Raised
  /\ tool_events (log (snd (calling_tools state s)))
     = tool_events (log s) ++ pre.
Proof.
  intros Hpre Hnone state.
  assert (Hrun : calling_tools state s
                 = for_tool_calls (pre ++ tc :: post) [] s).
  { unfold calling_tools, last_tool_calls. subst state. cbn [messages].
    by rewrite last_snoc. }
  rewrite Hrun.
  destruct (for_tool_calls_prefix pre (tc :: post) [] s Hpre)
    as (results' & s1 & -> & Hlog).
  cbn [for_tool_calls]. by rewrite Hnone.
Qed.

(** ** The graph *)

Lemma run_graph_rounds fuel :
  (forall state s final s',
     run_graph fuel thought_llm state s = (Returned (Some final), s') ->
     exists added,
       messages final = messages state ++ added
       /\ rounds added
       /\ number_of_steps final = number_of_steps state)
  /\ (forall history c tc tcs n s final s',
        run_graph fuel tool_set
          {| messages := history ++ [AIMessage c (tc :: tcs)];
             number_of_steps := n |} s
        = (Returned (Some final), s') ->
        exists responses rest,
          length responses = length (tc :: tcs)
          /\ messages final
             = (history ++ [AIMessage c (tc :: tcs)])
               ++ zip_with tool_message (tc :: tcs) responses ++ rest
          /\ rounds rest
          /\ number_of_steps final = n).
Proof.
  induction fuel as [|fuel [IHthought IHtools]].
  - split; intros; discriminate.
  - split.
    + intros state s final s' Hrun. cbn [run_graph] in Hrun.
      rewrite bind_run in Hrun. unfold calling_model in Hrun.
      rewrite bind_run in Hrun. unfold external in Hrun.
      destruct (model_invoke (messages state) (world s)) as [[[c tcs]|] w];
        [|done].
      cbn [mret M_ret fst snd] in Hrun. rewrite bind_run in Hrun.
      unfold lift, add_messages at 1 in Hrun.
      rewrite continue_or_end_last in Hrun.
      destruct tcs as [|tc tcs].
      * rewrite conditional_edges_end, run_graph_END in Hrun.
        injection Hrun as <- _. exists [AIMessage c []].
        split_and!; [done|constructor|done].
      * rewrite conditional_edges_continue in Hrun.
        unfold add_messages in Hrun. cbn [messages number_of_steps] in Hrun.
        apply IHtools in Hrun as (responses & rest & Hlen & Hm & Hr & Hn).
        exists (AIMessage c (tc :: tcs)
                  :: zip_with tool_message (tc :: tcs) responses ++ rest).
        split_and!; [|by constructor|done].
        rewrite Hm. by rewrite <- app_assoc.
    + intros history c tc tcs n s final s' Hrun. cbn [run_graph] in Hrun.
      rewrite bind_run in Hrun.
      assert (Hcalls : calling_tools
                         {| messages := history ++ [AIMessage c (tc :: tcs)];
                            number_of_steps := n |} s
                       = for_tool_calls (tc :: tcs) [] s).
      { unfold calling_tools, last_tool_calls. cbn [messages].
        by rewrite last_snoc. }
      rewrite Hcalls in Hrun.
      pose proof (for_tool_calls_spec (tc :: tcs) [] s) as Hspec.
      destruct (for_tool_calls (tc :: tcs) [] s) as [[results|] s1]; [|done].
      destruct Hspec as (responses & Hlen & -> & _). rewrite app_nil_l in Hrun.
      apply IHthought in Hrun as (added & Hm & Hr & Hn).
      exists responses, added. split_and!; try done.
      rewrite Hm. unfold add_messages. cbn [messages].
      by rewrite <- !app_assoc.
Qed.

(** X15. A run that ends only appends to the history it was given: what
    it adds is a sequence of replies with tool calls, each directly
    followed by one result per call in the order of the calls, closed by a
    reply without tool calls. [number_of_steps] is left as it was. *)
Theorem run_graph_history fuel state s final s' :
  graph fuel state s = (Returned (Some final), s') ->
  exists added,
    messages final = messages state ++ added
    /\ rounds added
    /\ number_of_steps final = number_of_steps state.
Proof. apply (proj1 (run_graph_rounds fuel)). Qed.

(** X17. Nothing catches a model call that raises: the turn ends in the
    exception, without an answer. *)
Theorem predict_model_fault fuel message history s w :
  let chat_messages :=
    [SystemMessage system_prompt] ++ map chat_message history
      ++ [HumanMessage message] in
  model_invoke chat_messages (world s) = (Raised, w) ->
  predict (S fuel) message history s
  = (Raised, {| world := w; log := log s ++ [ModelInvoke chat_messages] |}).
Proof.
  intros chat_messages Hmodel. unfold predict. rewrite bind_run.
  fold chat_messages. unfold graph. cbn [run_graph]. rewrite bind_run.
  unfold calling_model. rewrite bind_run. cbn [messages].
  by rewrite (external_run _ _ _ _ _ Hmodel).
Qed.

(** X18. An exception that leaves a tool ends the run: when the model asks
    for [get_price_in_wanted_currency] and the rate provider raises, the
    graph raises after the dispatch, and the model is not invoked again. *)
Theorem graph_tool_fault fuel inputs s c tc w wanted current price w' :
  model_invoke (messages inputs) (world s) = (Returned (c, [tc]), w) ->
  tc_name tc = "get_price_in_wanted_currency" ->
  tc_args tc = ToolFields2 wanted current price ->
  rates_get current w = (Raised, w') ->
  graph (S (S fuel)) inputs s
  = (Raised,
     {| world := w';
        log := log s ++ [ModelInvoke (messages inputs); ToolInvoke tc;
                         RatesGet current] |}).
Proof.
  intros Hmodel Hname Hargs Hrates. unfold graph.
  rewrite (run_graph_thought_llm _ _ _ _ _ _ Hmodel).
  cbn [run_graph]. rewrite bind_run. unfold add_messages at 1.
  unfold calling_tools, last_tool_calls. cbn [messages].
  rewrite last_snoc, bind_run. unfold lift. cbn [for_tool_calls].
  rewrite Hname.
  change (tools_by_name !! "get_price_in_wanted_currency")
    with (Some get_price_in_wanted_currency_tool).
  cbv beta iota. rewrite bind_run. cbn [tell]. rewrite bind_run, Hargs.
  cbn [invoke get_price_in_wanted_currency_tool].
  unfold get_price_in_wanted_currency. rewrite bind_run.
  rewrite (external_run _ _ _ (Raised) w') by exact Hrates.
  cbn [log]. by rewrite <- !app_assoc.
Qed.

(** ** The order of the calls in a run *)

Lemma mute_ret {A : Type} (a : A) : mute (mret a).
Proof. by intros s. Qed.

Lemma mute_raise {A : Type} : mute (@raise A).
Proof. by intros s. Qed.

Lemma mute_lift {A : Type} (r : outcome A) : mute (lift r).
Proof. by intros s. Qed.

Lemma mute_bind {A B : Type} (m : M A) (f : A -> M B) :
  mute m -> (forall a, mute (f a)) -> mute (m ≫= f).
Proof.
  intros Hm Hf s. rewrite bind_run. specialize (Hm s).
  destruct (m s) as [[a|] s']; simpl in Hm |- *; [|done].
  by rewrite Hf.
Qed.

Lemma mute_try_except {A : Type} (body handler : M A) :
  mute body -> mute handler -> mute (try_except body handler).
Proof.
  intros Hb Hh s. unfold try_except. specialize (Hb s).
  destruct (body s) as [[a|] s']; simpl in Hb |- *; [done|].
  by rewrite Hh.
Qed.

Lemma mute_external {A : Type} (f : World -> outcome A * World) ev :
  (forall r, model_events [ev r] = []) -> mute (external f ev).
Proof.
  intros Hev s. unfold external. destruct (f (world s)) as [r w]. simpl.
  unfold model_events in *. by rewrite omap_app, Hev, app_nil_r.
Qed.

Lemma mute_tell tc : mute (tell (ToolInvoke tc)).
Proof.
  intros s. unfold tell. simpl. unfold model_events.
  by rewrite omap_app, app_nil_r.
Qed.

Lemma mute_while_not_req fuel hotelIds people cin cout j req :
  mute (while_not_req fuel hotelIds people cin cout j req).
Proof.
  revert j req. induction fuel as [|fuel IH]; intros j req; simpl.
  - destruct (negb (truthy req) && (j <? 5)%nat); apply mute_ret.
  - destruct (negb (truthy req) && (j <? 5)%nat); [|apply mute_ret].
    apply mute_bind; [by apply mute_external | intros a; apply IH].
Qed.

Lemma mute_for_batches batches ids people cin cout hotelOffers :
  mute (for_batches batches ids people cin cout hotelOffers).
Proof.
  revert hotelOffers. induction batches as [|i batches IH];
    intros hotelOffers; cbn [for_batches]; [apply mute_ret|].
  apply mute_bind; [apply mute_while_not_req | intros a; apply IH].
Qed.

Lemma mute_invoke n t args :
  tools_by_name !! n = Some t -> mute (invoke t args).
Proof.
  intros H. apply tools_by_name_lookup in H as [-> | [-> | [-> | ->]]];
    destruct args; cbn [invoke get_iata_of_city_tool get_best_offer_tool
                          get_price_in_wanted_currency_tool about_you_tool];
    try apply mute_raise; try apply mute_ret.
  - apply mute_try_except; [|apply mute_ret].
    apply mute_bind; [by apply mute_external | intros; apply mute_ret].
  - apply mute_try_except; [|apply mute_ret].
    apply mute_bind.
    + apply mute_bind; [by apply mute_external|].
      intros hotels. apply mute_for_batches.
    + intros hos. apply mute_bind; [apply mute_lift | intros; apply mute_ret].
  - apply mute_bind; [by apply mute_external|].
    intros [|[table|]]; [apply mute_ret| |apply mute_raise].
    destruct (table !! wantedCurrency); [|apply mute_ret].
    apply mute_bind; [apply mute_lift | intros; apply mute_ret].
Qed.

Lemma mute_for_tool_calls tcs results : mute (for_tool_calls tcs results).
Proof.
  revert results. induction tcs as [|tc tcs IH]; intros results;
    cbn [for_tool_calls]; [apply mute_ret|].
  destruct (tools_by_name !! tc_name tc) as [t|] eqn:Ht; [|apply mute_raise].
  apply mute_bind; [apply mute_tell|]. intros _.
  apply mute_bind; [by eapply mute_invoke|]. intros r. apply IH.
Qed.

Lemma run_graph_trace_nodes fuel :
  (forall state s final s',
     run_graph fuel thought_llm state s = (Returned (Some final), s') ->
     exists added invoked dispatched,
       messages final = messages state ++ added
       /\ run_trace (messages state) added invoked dispatched
       /\ model_events (log s') = model_events (log s) ++ invoked
       /\ tool_events (log s') = tool_events (log s) ++ dispatched)
  /\ (forall history c tc tcs n s final s',
        run_graph fuel tool_set
          {| messages := history ++ [AIMessage c (tc :: tcs)];
             number_of_steps := n |} s
        = (Returned (Some final), s') ->
        exists responses rest invoked dispatched,
          length responses = length (tc :: tcs)
          /\ messages final
             = (history ++ [AIMessage c (tc :: tcs)])
               ++ zip_with tool_message (tc :: tcs) responses ++ rest
          /\ run_trace
               ((history ++ [AIMessage c (tc :: tcs)])
                  ++ zip_with tool_message (tc :: tcs) responses)
               rest invoked dispatched
          /\ model_events (log s') = model_events (log s) ++ invoked
          /\ tool_events (log s')
             = tool_events (log s) ++ (tc :: tcs) ++ dispatched).
Proof.
  induction fuel as [|fuel [IHthought IHtools]].
  - split; intros; discriminate.
  - split.
    + intros state s final s' Hrun. cbn [run_graph] in Hrun.
      rewrite bind_run in Hrun. unfold calling_model in Hrun.
      rewrite bind_run in Hrun. unfold external in Hrun.
      destruct (model_invoke (messages state) (world s)) as [[[c tcs]|] w];
        [|done].
      cbn [mret M_ret fst snd] in Hrun. rewrite bind_run in Hrun.
      unfold lift, add_messages at 1 in Hrun.
      rewrite continue_or_end_last in Hrun.
      destruct tcs as [|tc tcs].
      * rewrite conditional_edges_end, run_graph_END in Hrun.
        injection Hrun as <- <-.
        exists [AIMessage c []], [messages state], [].
        split_and!; [done|constructor| |].
        -- cbn [log]. unfold model_events. by rewrite omap_app.
        -- cbn [log]. unfold tool_events. by rewrite omap_app, !app_nil_r.
      * rewrite conditional_edges_continue in Hrun.
        unfold add_messages in Hrun. cbn [messages number_of_steps] in Hrun.
        apply IHtools in Hrun
          as (responses & rest & invoked & dispatched
              & Hlen & Hm & Htrace & Hmodel & Htools).
        cbn [log] in Hmodel, Htools.
        exists (AIMessage c (tc :: tcs)
                  :: zip_with tool_message (tc :: tcs) responses ++ rest),
               (messages state :: invoked), ((tc :: tcs) ++ dispatched).
        split_and!.
        -- rewrite Hm. by rewrite <- app_assoc.
        -- constructor; [done|]. by rewrite <- app_assoc in Htrace.
        -- rewrite Hmodel. unfold model_events. rewrite omap_app.
           by rewrite <- app_assoc.
        -- rewrite Htools. unfold tool_events. rewrite omap_app.
           by rewrite app_nil_r.
    + intros history c tc tcs n s final s' Hrun. cbn [run_graph] in Hrun.
      rewrite bind_run in Hrun.
      assert (Hcalls : calling_tools
                         {| messages := history ++ [AIMessage c (tc :: tcs)];
                            number_of_steps := n |} s
                       = for_tool_calls (tc :: tcs) [] s).
      { unfold calling_tools, last_tool_calls. cbn [messages].
        by rewrite last_snoc. }
      rewrite Hcalls in Hrun.
      pose proof (for_tool_calls_spec (tc :: tcs) [] s) as Hspec.
      pose proof (mute_for_tool_calls (tc :: tcs) [] s) as Hmute.
      destruct (for_tool_calls (tc :: tcs) [] s) as [[results|] s1]; [|done].
      destruct Hspec as (responses & Hlen & -> & Hdisp).
      rewrite app_nil_l in Hrun. cbn [snd] in Hmute.
      apply IHthought in Hrun
        as (added & invoked & dispatched & Hm & Htrace & Hmodel & Htools).
      unfold add_messages in Hm, Htrace. cbn [messages] in Hm, Htrace.
      exists responses, added, invoked, dispatched. split_and!; try done.
      * rewrite Hm. by rewrite <- !app_assoc.
      * by rewrite Hmodel, Hmute.
      * rewrite Htools, Hdisp. by rewrite <- app_assoc.
Qed.

(** X19. In a run that ends, the model is invoked once per reply, each
    time on the whole history so far (the input, the earlier replies and
    every result of their tool calls), and the tools are dispatched in the
    order of the requests, reply after reply. *)
Theorem run_graph_trace fuel state s final s' :
  graph fuel state s = (Returned (Some final), s') ->
  exists added invoked dispatched,
    messages final = messages state ++ added
    /\ run_trace (messages state) added invoked dispatched
    /\ model_events (log s') = model_events (log s) ++ invoked
    /\ tool_events (log s') = tool_events (log s) ++ dispatched.
Proof. apply (proj1 (run_graph_trace_nodes fuel)). Qed.

End Agent.

Arguments tool_name {World} _.
Arguments return_direct {World} _.
Arguments invoke {World} _ _ _.

(** * The properties on scripted runs *)

Import Script.

(** ** [get_best_offer] *)

(** A search for two guests in Athens, and its retrieval phase. *)
Local Abbreviation search offers_search :=
  (get_best_offer W hotels_three offers_search float_of_decimal
     "ATH" 2 "2026-01-10" "2026-01-12" start).

Local Abbreviation retrieval offers_search :=
  (retrieve_hotelOffers W hotels_three offers_search
     "ATH" 2 "2026-01-10" "2026-01-12" start).

Example float_of_decimal_values :
  float_of_decimal "95.50" = Some (S754_finite false 6720215068966912 (-46))
  /\ float_of_decimal "0.1" = Some (S754_finite false 7205759403792794 (-56))
  /\ float_of_decimal "1000000000000" = Some bestprice0
  /\ float_of_decimal "12a" = None.
Proof. repeat split; vm_compute; reflexivity. Qed.

(** Offers at 120.00 and 95.50: the record of the first offer at 95.50. *)
Example search_two_prices :
  fst (search (offers_when_asked offers_two_prices))
  = Returned (OfferDict
      {| hotelName := "Hotel B";
         offerTotalAccommodationAmount := "95.50";
         offerCurrency := "EUR";
         offerRoomDescription := "Single";
         people := 2;
         checkInDate := "2026-01-10";
         checkOutDate := "2026-01-12" |}).
Proof. vm_compute. reflexivity. Qed.

Lemma get_best_offer_minimum_two_prices :
  exists k h o best,
    scan_order offers_two_prices !! k = Some (h, o)
    /\ float_of_decimal (price_total o) = Some best
    /\ search (offers_when_asked offers_two_prices)
       = (Returned (OfferDict
                      (make_bestOffer h o 2 "2026-01-10" "2026-01-12")),
          snd (retrieval (offers_when_asked offers_two_prices)))
    /\ (forall x f, x ∈ scan_order offers_two_prices ->
          price_of float_of_decimal x = Some f ->
          lt f best = false /\ (is_nan f = false -> le best f = true))
    /\ (forall j x f, (j < k)%nat ->
          scan_order offers_two_prices !! j = Some x ->
          price_of float_of_decimal x = Some f -> le f best = false).
Proof.
  apply (get_best_offer_minimum W hotels_three
           (offers_when_asked offers_two_prices) float_of_decimal
           "ATH" 2 "2026-01-10" "2026-01-12" start offers_two_prices).
  - vm_compute. reflexivity.
  - apply Forall_forall. repeat constructor; compute_done.
  - exists (Build_hotel_offer "Hotel A" [mk_offer "120.00" "Double"],
            mk_offer "120.00" "Double"),
           (S754_finite false 8444249301319680 (-46)).
    split; [apply list_elem_of_here|].
    split; vm_compute; reflexivity.
Defined.

(** A single offer, at 10^12: an offer is retrieved and [None] comes
    back. *)
Lemma get_best_offer_offer_at_sentinel :
  fst (retrieval (offers_when_asked offers_at_sentinel))
  = Returned offers_at_sentinel
  /\ length (scan_order offers_at_sentinel) = 1%nat
  /\ fst (search (offers_when_asked offers_at_sentinel)) = Returned PyNone
  /\ (forall o, fst (search (offers_when_asked offers_at_sentinel))
                <> Returned (OfferDict o)).
Proof.
  repeat split; try (vm_compute; reflexivity).
  intros o. vm_compute. discriminate.
Qed.

Lemma get_best_offer_sentinel_above :
  search (offers_when_asked offers_above_sentinel)
  = (Returned PyNone, snd (retrieval (offers_when_asked offers_above_sentinel))).
Proof.
  refine (proj1 (get_best_offer_sentinel W hotels_three
                   (offers_when_asked offers_above_sentinel) float_of_decimal
                   "ATH" 2 "2026-01-10" "2026-01-12" start
                   offers_above_sentinel _ _) _).
  - vm_compute. reflexivity.
  - apply Forall_forall. repeat constructor.
    + exists bestprice0. split; vm_compute; reflexivity.
    + exists (S754_finite false 5120000000000000 (-11)).
      split; vm_compute; reflexivity.
Defined.

(** A provider that never has data: five attempts on each batch, then
    [None], not the error object. *)
Lemma get_best_offer_no_offers_scripted :
  search offers_never = (Returned PyNone, snd (retrieval offers_never))
  /\ search offers_never
     <> (Returned (ErrorDict "No Offers Found"), snd (retrieval offers_never)).
Proof.
  apply (get_best_offer_no_offers W hotels_three offers_never
           float_of_decimal "ATH" 2 "2026-01-10" "2026-01-12" start []).
  - vm_compute. reflexivity.
  - vm_compute. reflexivity.
Defined.

Example search_never_log :
  log (snd (search offers_never))
  = HotelsByCity "ATH"
    :: replicate 5 (OffersSearch [Some "H1"; Some "H2"; Some "H3"] 2
                      "2026-01-10" "2026-01-12" NoResult)
    ++ replicate 5 (OffersSearch [] 2 "2026-01-10" "2026-01-12" NoResult).
Proof. vm_compute. reflexivity. Qed.


Example search_flaky_log :
  log (snd (search (offers_flaky offers_two_prices)))
  = HotelsByCity "ATH"
    :: map (OffersSearch [Some "H1"; Some "H2"; Some "H3"] 2
              "2026-01-10" "2026-01-12") [NoResult; NoResult; GotResult]
    ++ replicate 5 (OffersSearch [] 2 "2026-01-10" "2026-01-12" NoResult).
Proof. vm_compute. reflexivity. Qed.

(** ** [get_iata_of_city] *)

(** Two cities named Athens, none of them in France: both codes are keys
    of the result. *)
Lemma get_iata_of_city_fallback_athens :
  get_iata_of_city W cities_two "Athens" "FR" start
  = (Returned (IataDict (fill_outputDict [athens_gr; athens_us] ∅)),
     {| world := 1%nat; log := log start ++ [CitiesGet "Athens"] |})
  /\ fill_outputDict [athens_gr; athens_us] ∅ <> ∅
  /\ (forall i, i ∈ [athens_gr; athens_us] ->
        is_Some (fill_outputDict [athens_gr; athens_us] ∅
                   !! city_iataCode i))
  /\ (forall k e, fill_outputDict [athens_gr; athens_us] ∅ !! k = Some e ->
        exists i, i ∈ [athens_gr; athens_us]
                  /\ city_iataCode i = k /\ e = city_entry i).
Proof.
  apply (get_iata_of_city_fallback W cities_two "Athens" "FR" start
           [athens_gr; athens_us] 1%nat).
  - vm_compute. reflexivity.
  - discriminate.
  - apply Forall_forall. repeat constructor; vm_compute; discriminate.
Defined.

Example get_iata_of_city_athens_fr :
  exists d,
    fst (get_iata_of_city W cities_two "Athens" "FR" start)
    = Returned (IataDict d)
    /\ d !! Some "ATH" = Some (city_entry athens_gr)
    /\ d !! Some "AHN" = Some (city_entry athens_us)
    /\ city_entry athens_gr !! "countryCode" = Some (VStr "GR")
    /\ city_entry athens_gr !! "name" = Some (VStr "Athens")
    /\ city_entry athens_gr !! "latitude" = Some (VInt 38).
Proof. eexists. repeat split; vm_compute; reflexivity. Qed.

(** With the country of one of them, only that one is kept. *)
Example get_iata_of_city_athens_gr :
  fst (get_iata_of_city W cities_two "Athens" "GR" start)
  = Returned (IataDict {[ Some "ATH" := city_entry athens_gr ]}).
Proof. vm_compute. reflexivity. Qed.

(** No city at all: the empty dictionary. *)
Lemma get_iata_of_city_empty_scripted :
  get_iata_of_city W cities_none "Atlantis" "GR" start
  = (Returned (IataDict ∅),
     {| world := 1%nat; log := log start ++ [CitiesGet "Atlantis"] |}).
Proof.
  apply (get_iata_of_city_empty W cities_none "Atlantis" "GR" start 1%nat).
  vm_compute. reflexivity.
Defined.

Example get_iata_of_city_down :
  fst (get_iata_of_city W cities_down "Athens" "GR" start)
  = Returned (ErrorDict "The city not found (no IATA code).").
Proof. vm_compute. reflexivity. Qed.

(** ** [get_price_in_wanted_currency] *)

Example hundred_is_100 :
  float_of_decimal "100.00" = Some hundred
  /\ float_of_decimal "1.08" = Some rate_1_08.
Proof. split; vm_compute; reflexivity. Qed.

(** The rate provider is down: the exception leaves the tool. *)
Lemma get_price_in_wanted_currency_fault_scripted :
  get_price_in_wanted_currency W rates_down float_of_decimal
    "USD" "EUR" hundred start
  = (Raised, {| world := 1%nat; log := log start ++ [RatesGet "EUR"] |}).
Proof.
  apply (get_price_in_wanted_currency_fault W rates_down float_of_decimal
           "USD" "EUR" hundred start 1%nat).
  vm_compute. reflexivity.
Defined.

(** 100.00 EUR at a rate of 1.08 is 108.0; an unknown currency gives the
    error object. *)
Example get_price_in_wanted_currency_usd :
  fst (get_price_in_wanted_currency W rates_usd float_of_decimal
         "USD" "EUR" hundred start)
  = Returned (PriceDict (float_of_int 108))
  /\ fst (get_price_in_wanted_currency W rates_usd float_of_decimal
            "XXX" "EUR" hundred start)
     = Returned (ErrorDict "Could Not Estimate Price").
Proof. split; vm_compute; reflexivity. Qed.

(** ** The graph *)

Local Abbreviation run_predict model_invoke fuel message history :=
  (predict W cities_two hotels_three offers_never rates_down model_invoke
     float_of_decimal fuel message history start).

Local Abbreviation run_graph_on model_invoke :=
  (run_graph W cities_two hotels_three offers_never rates_down model_invoke
     float_of_decimal).

(** The model asks for [about_you]: the result goes back to the model. *)
Lemma about_you_result_fed_back_scripted :
  let result := ToolMessage about_you_response "about_you" "call_1" in
  let state' :=
    add_messages (add_messages question [AIMessage "" [about_you_call]])
      [result] in
  let s' :=
    {| world := 1%nat;
       log := log start ++ [ModelInvoke (messages question);
                            ToolInvoke about_you_call] |} in
  return_direct (about_you_tool W) = true
  /\ run_graph_on model_about_you 3 thought_llm question start
     = run_graph_on model_about_you 1 thought_llm state' s'
  /\ run_graph_on model_about_you 3 thought_llm question start
     <> (Returned (Some state'), s').
Proof.
  apply (about_you_result_fed_back W cities_two hotels_three offers_never
           rates_down model_about_you float_of_decimal 1 question start
           "" about_you_call 1%nat).
  - vm_compute. reflexivity.
  - reflexivity.
  - reflexivity.
Defined.

(** The answer is the second reply of the model, which was invoked twice,
    the second time on a history that ends with the result of the tool. *)
Example predict_about_you :
  fst (run_predict model_about_you 3 "What can you do?" [])
  = Returned (Some (Text "I can search hotel offers."))
  /\ fst (run_predict model_about_you 3 "What can you do?" [])
     <> Returned (Some (ToolOutput about_you_response))
  /\ model_events (log (snd (run_predict model_about_you 3
                               "What can you do?" [])))
     = [ messages question;
         messages question
           ++ [AIMessage "" [about_you_call];
               ToolMessage about_you_response "about_you" "call_1"] ].
Proof. repeat split; vm_compute; (reflexivity || discriminate). Qed.

(** The model answers at once. *)
Lemma graph_first_reply_scripted :
  exists s',
    run_graph_on model_hello 1 thought_llm question start
    = (Returned (Some (add_messages question [AIMessage "Hello!" []])), s')
    /\ world s' = 1%nat
    /\ log s' = log start ++ [ModelInvoke (messages question)]
    /\ model_events (log s')
       = model_events (log start) ++ [messages question]
    /\ tool_events (log s') = tool_events (log start)
    /\ message_content
         <$> last (messages (add_messages question [AIMessage "Hello!" []]))
       = Some (Text "Hello!").
Proof.
  apply (graph_first_reply_without_tool_calls W cities_two hotels_three
           offers_never rates_down model_hello float_of_decimal 0 question
           start "Hello!" 1%nat).
  vm_compute. reflexivity.
Defined.

Example predict_hello :
  run_predict model_hello 1 "Hi" [(user, "a"); (assistant, "b")]
  = (Returned (Some (Text "Hello!")),
     {| world := 1%nat;
        log := [ModelInvoke [SystemMessage system_prompt; HumanMessage "a";
                             AIMessage "b" []; HumanMessage "Hi"]] |}).
Proof. vm_compute. reflexivity. Qed.

(** Two requests in one reply: two results, in the order of the requests,
    each with the identifier of its request, then the model again. *)
Example calling_tools_two_calls :
  exists d,
    fst (calling_tools W cities_two hotels_three offers_never rates_down
           float_of_decimal
           (add_messages question
              [AIMessage "" [ {| tc_name := "get_iata_of_city";
                                 tc_args := ToolFields0 "Athens" "GR";
                                 tc_id := "call_a" |};
                              {| tc_name := "about_you"; tc_args := NoFields;
                                 tc_id := "call_b" |} ]])
           start)
    = Returned [ ToolMessage (IataDict d) "get_iata_of_city" "call_a";
                 ToolMessage about_you_response "about_you" "call_b" ].
Proof. eexists. vm_compute. reflexivity. Qed.

(** A request for a name without tool, or without the fields of the
    schema, raises; [about_you] drops the arguments it is given. *)
Example calling_tools_unknown :
  fst (calling_tools W cities_two hotels_three offers_never rates_down
         float_of_decimal
         (add_messages question
            [AIMessage "" [ {| tc_name := "book_hotel"; tc_args := NoFields;
                               tc_id := "call_a" |} ]])
         start) = Raised
  /\ fst (calling_tools W cities_two hotels_three offers_never rates_down
            float_of_decimal
            (add_messages question
               [AIMessage "" [ {| tc_name := "get_best_offer";
                                  tc_args := ToolFields0 "Athens" "GR";
                                  tc_id := "call_a" |} ]])
            start) = Raised
  /\ fst (calling_tools W cities_two hotels_three offers_never rates_down
            float_of_decimal
            (add_messages question
               [AIMessage "" [ {| tc_name := "about_you";
                                  tc_args := ToolFields0 "Athens" "GR";
                                  tc_id := "call_a" |} ]])
            start)
     = Returned [ToolMessage about_you_response "about_you" "call_a"].
Proof. repeat split; vm_compute; reflexivity. Qed.

(** ** Further scripted runs *)

Lemma get_iata_of_city_filtered_athens :
  let kept := List.filter (country_matches "GR") [athens_gr; athens_us] in
  get_iata_of_city W cities_two "Athens" "GR" start
  = (Returned (IataDict (fill_outputDict kept ∅)),
     {| world := 1%nat; log := log start ++ [CitiesGet "Athens"] |})
  /\ (forall i, i ∈ [athens_gr; athens_us] ->
        city_address i !! "countryCode" = Some (VStr "GR") ->
        is_Some (fill_outputDict kept ∅ !! city_iataCode i))
  /\ (forall k e, fill_outputDict kept ∅ !! k = Some e ->
        exists i, i ∈ [athens_gr; athens_us]
                  /\ city_address i !! "countryCode" = Some (VStr "GR")
                  /\ city_iataCode i = k /\ e = city_entry i).
Proof.
  apply (get_iata_of_city_filtered W cities_two "Athens" "GR" start
           [athens_gr; athens_us] 1%nat).
  - vm_compute. reflexivity.
  - exists athens_gr. split; [left | vm_compute; reflexivity].
Defined.

Lemma fill_outputDict_last_wins_athens :
  fill_outputDict ([athens_gr] ++ athens_old :: [athens_us]) ∅
    !! city_iataCode athens_old
  = Some (city_entry athens_old).
Proof.
  apply (fill_outputDict_last_wins [athens_gr] athens_old [athens_us] ∅).
  apply Forall_forall. repeat constructor. discriminate.
Defined.

Lemma get_best_offer_listing_fault_scripted :
  get_best_offer W hotels_down offers_never float_of_decimal
    "ATH" 2 "2026-01-10" "2026-01-12" start
  = (Returned (ErrorDict "No Offers Found"),
     {| world := 1%nat; log := log start ++ [HotelsByCity "ATH"] |}).
Proof.
  apply (get_best_offer_listing_fault W hotels_down offers_never
           float_of_decimal "ATH" 2 "2026-01-10" "2026-01-12" start 1%nat).
  vm_compute. reflexivity.
Defined.

Lemma get_best_offer_later_fault_scripted :
  search (offers_fault_on_none offers_two_prices)
  = (Returned (ErrorDict "No Offers Found"),
     {| world := 3%nat;
        log := log start
               ++ [HotelsByCity "ATH";
                   OffersSearch (slice (map hotelId three_hotels) 0 50) 2
                     "2026-01-10" "2026-01-12" GotResult;
                   OffersSearch (slice (map hotelId three_hotels) 50 100) 2
                     "2026-01-10" "2026-01-12" Faulted] |}).
Proof.
  apply (get_best_offer_later_fault W hotels_three
           (offers_fault_on_none offers_two_prices) float_of_decimal
           "ATH" 2 "2026-01-10" "2026-01-12" start three_hotels 1%nat
           offers_two_prices 2%nat 3%nat).
  - vm_compute. reflexivity.
  - vm_compute. reflexivity.
  - vm_compute. reflexivity.
Defined.

Lemma get_best_offer_bad_total_scripted :
  search (offers_when_asked offers_bad_total)
  = (Returned (ErrorDict "No Offers Found"),
     snd (retrieval (offers_when_asked offers_bad_total))).
Proof.
  apply (get_best_offer_bad_total W hotels_three
           (offers_when_asked offers_bad_total) float_of_decimal
           "ATH" 2 "2026-01-10" "2026-01-12" start offers_bad_total).
  - vm_compute. reflexivity.
  - exists ({| hotel_name := "Hotel A";
               offers := [mk_offer "80.00" "Double"; mk_offer "n/a" "Suite"] |},
            mk_offer "n/a" "Suite").
    split; [apply list_elem_of_In; simpl; tauto | vm_compute; reflexivity].
Defined.

Lemma get_best_offer_below_sentinel_two_prices :
  exists hotelOffers h o f,
    retrieval (offers_when_asked offers_two_prices)
    = (Returned hotelOffers, snd (search (offers_when_asked offers_two_prices)))
    /\ (h, o) ∈ scan_order hotelOffers
    /\ {| hotelName := "Hotel B";
          offerTotalAccommodationAmount := "95.50";
          offerCurrency := "EUR";
          offerRoomDescription := "Single";
          people := 2;
          checkInDate := "2026-01-10";
          checkOutDate := "2026-01-12" |}
       = make_bestOffer h o 2 "2026-01-10" "2026-01-12"
    /\ float_of_decimal (price_total o) = Some f
    /\ lt f bestprice0 = true.
Proof.
  apply (get_best_offer_below_sentinel W hotels_three
           (offers_when_asked offers_two_prices) float_of_decimal
           "ATH" 2 "2026-01-10" "2026-01-12" start).
  vm_compute. reflexivity.
Defined.

Lemma get_best_offer_small_listing_scripted :
  exists s0 s1 : list status,
    log (snd (search (offers_when_asked offers_two_prices)))
    = log start ++ HotelsByCity "ATH"
        :: map (OffersSearch (map hotelId three_hotels) 2
                  "2026-01-10" "2026-01-12") s0
        ++ map (OffersSearch [] 2 "2026-01-10" "2026-01-12") s1
    /\ (1 <= length s0)%nat
    /\ (Faulted ∉ s0 -> (1 <= length s1)%nat).
Proof.
  apply (get_best_offer_small_listing W hotels_three
           (offers_when_asked offers_two_prices) float_of_decimal
           "ATH" 2 "2026-01-10" "2026-01-12" start three_hotels 1%nat).
  - vm_compute. reflexivity.
  - simpl. lia.
Defined.

Lemma get_price_in_wanted_currency_error_scripted :
  fst (get_price_in_wanted_currency W rates_usd float_of_decimal
         "XXX" "EUR" hundred start)
  = Returned (ErrorDict "Could Not Estimate Price").
Proof.
  apply (get_price_in_wanted_currency_error W rates_usd float_of_decimal
           "XXX" "EUR" hundred start
           (DataObject (Some {[ "USD" := VFloat rate_1_08 ]})) 1%nat).
  - vm_compute. reflexivity.
  - right. eexists. split; [reflexivity | vm_compute; reflexivity].
Defined.

Lemma get_price_in_wanted_currency_no_table_scripted :
  fst (get_price_in_wanted_currency W rates_error_body float_of_decimal
         "USD" "EUR" hundred start)
  = Raised.
Proof.
  apply (get_price_in_wanted_currency_no_table W rates_error_body
           float_of_decimal "USD" "EUR" hundred start 1%nat).
  vm_compute. reflexivity.
Defined.

Local Abbreviation calling_tools_on state :=
  (calling_tools W cities_two hotels_three offers_never rates_down
     float_of_decimal state start).

Lemma calling_tools_unregistered_scripted :
  let state :=
    {| messages :=
         messages question
         ++ [AIMessage "" ([about_you_call]
                           ++ book_hotel_call :: [about_you_call])];
       number_of_steps := None |} in
  fst (calling_tools_on state) = Raised
  /\ tool_events (log (snd (calling_tools_on state)))
     = tool_events (log start) ++ [about_you_call].
Proof.
  apply (calling_tools_unregistered W cities_two hotels_three offers_never
           rates_down float_of_decimal (messages question) ""
           [about_you_call] book_hotel_call [about_you_call] None start).
  - constructor; [right; right; split; reflexivity | constructor].
  - vm_compute. reflexivity.
Defined.

(** The state a run with two tool calls in the first reply ends in. *)
Local Abbreviation final_two_calls :=
  (match fst (run_graph_on model_two_calls 3 thought_llm question start) with
   | Returned (Some final) => final
   | _ => question
   end).

Lemma run_graph_history_two_calls :
  exists added,
    messages final_two_calls = messages question ++ added
    /\ rounds added
    /\ number_of_steps final_two_calls = number_of_steps question.
Proof.
  apply (run_graph_history W cities_two hotels_three offers_never rates_down
           model_two_calls float_of_decimal 3 question start final_two_calls
           (snd (run_graph_on model_two_calls 3 thought_llm question start))).
  vm_compute. reflexivity.
Defined.

Example run_graph_two_calls_history :
  exists d,
    messages final_two_calls
    = messages question
      ++ [ AIMessage "" [ {| tc_name := "get_iata_of_city";
                             tc_args := ToolFields0 "Athens" "GR";
                             tc_id := "call_a" |};
                          {| tc_name := "about_you"; tc_args := NoFields;
                             tc_id := "call_b" |} ];
           ToolMessage (IataDict d) "get_iata_of_city" "call_a";
           ToolMessage about_you_response "about_you" "call_b";
           AIMessage "Done." [] ].
Proof. eexists. vm_compute. reflexivity. Qed.

Lemma predict_answer_is_text_about_you :
  exists c h w,
    Text "I can search hotel offers." = Text c
    /\ model_about_you h w
       = (Returned (c, []),
          world (snd (run_predict model_about_you 3 "What can you do?" [])))
    /\ last (log (snd (run_predict model_about_you 3 "What can you do?" [])))
       = Some (ModelInvoke h).
Proof.
  apply (predict_answer_is_text W cities_two hotels_three offers_never
           rates_down model_about_you float_of_decimal 3 "What can you do?"
           [] start (Text "I can search hotel offers.")
           (snd (run_predict model_about_you 3 "What can you do?" []))).
  vm_compute. reflexivity.
Defined.

Lemma run_graph_trace_two_calls :
  exists added invoked dispatched,
    messages final_two_calls = messages question ++ added
    /\ run_trace (messages question) added invoked dispatched
    /\ model_events
         (log (snd (run_graph_on model_two_calls 3 thought_llm question
                      start)))
       = model_events (log start) ++ invoked
    /\ tool_events
         (log (snd (run_graph_on model_two_calls 3 thought_llm question
                      start)))
       = tool_events (log start) ++ dispatched.
Proof.
  apply (run_graph_trace W cities_two hotels_three offers_never rates_down
           model_two_calls float_of_decimal 3 question start final_two_calls
           (snd (run_graph_on model_two_calls 3 thought_llm question start))).
  vm_compute. reflexivity.
Defined.

Example run_graph_two_calls_log :
  length (model_events
            (log (snd (run_graph_on model_two_calls 3 thought_llm question
                         start)))) = 2%nat
  /\ map tc_id
       (tool_events
          (log (snd (run_graph_on model_two_calls 3 thought_llm question
                       start))))
     = ["call_a"; "call_b"].
Proof. split; vm_compute; reflexivity. Qed.

Lemma predict_model_fault_scripted :
  run_predict model_down 3 "Hi" [(user, "a"); (assistant, "b")]
  = (Raised,
     {| world := 1%nat;
        log := log start
               ++ [ModelInvoke ([SystemMessage system_prompt]
                                ++ map chat_message
                                     [(user, "a"); (assistant, "b")]
                                ++ [HumanMessage "Hi"])] |}).
Proof.
  apply (predict_model_fault W cities_two hotels_three offers_never
           rates_down model_down float_of_decimal 2 "Hi"
           [(user, "a"); (assistant, "b")] start 1%nat).
  vm_compute. reflexivity.
Defined.

Lemma graph_tool_fault_scripted :
  graph W cities_two hotels_three offers_never rates_down model_price
    float_of_decimal 3 question start
  = (Raised,
     {| world := 2%nat;
        log := log start ++ [ModelInvoke (messages question);
                             ToolInvoke price_call; RatesGet "EUR"] |}).
Proof.
  apply (graph_tool_fault W cities_two hotels_three offers_never rates_down
           model_price float_of_decimal 1 question start "" price_call
           1%nat "USD" "EUR" hundred 2%nat).
  - vm_compute. reflexivity.
  - reflexivity.
  - reflexivity.
  - vm_compute. reflexivity.
Defined.

(** ** The acting phase, once more *)

Local Abbreviation dispatched_on :=
  (dispatched W cities_two hotels_three offers_never rates_down
     float_of_decimal).

(** The state after a reply that carries [tcs]. *)
Local Abbreviation asked tcs :=
  {| messages := messages question ++ [AIMessage "" tcs];
     number_of_steps := None |}.



(** ** [get_best_offer], once more *)

(** The first batch brings offers at 10^12 and above, the query of the
    second batch raises: the error object comes back, not [None]. *)
Lemma get_best_offer_sentinel_fault :
  offers_fault_on_none offers_above_sentinel (map hotelId three_hotels) 2
    "2026-01-10" "2026-01-12" 1%nat
  = (Returned (Some offers_above_sentinel), 2%nat)
  /\ Forall (fun x => exists f, price_of float_of_decimal x = Some f
                                /\ le bestprice0 f = true)
            (scan_order offers_above_sentinel)
  /\ log (snd (search (offers_fault_on_none offers_above_sentinel)))
     = [ HotelsByCity "ATH";
         OffersSearch (map hotelId three_hotels) 2 "2026-01-10" "2026-01-12"
           GotResult;
         OffersSearch [] 2 "2026-01-10" "2026-01-12" Faulted ]
  /\ fst (search (offers_fault_on_none offers_above_sentinel))
     = Returned (ErrorDict "No Offers Found")
  /\ fst (search (offers_fault_on_none offers_above_sentinel))
     <> Returned PyNone.
Proof.
  split_and!; try (vm_compute; reflexivity).
  - repeat constructor.
    + exists bestprice0. split; vm_compute; reflexivity.
    + exists (S754_finite false 5120000000000000 (-11)).
      split; vm_compute; reflexivity.
  - vm_compute. discriminate.
Qed.
